(** * AIWEBSCRAPER: the content analyzer (parse.py) and the text cleaner
      (scrape.py), embedded and verified.

    Layout of the development:
    - [Py]         Python values the code manipulates: [str] as a sequence of
                   code points, with [len], slicing, [strip], [splitlines],
                   [join] and [startswith];
    - [Effects]    a state-and-exception monad for the analyzer: the requests
                   sent to the endpoint, the sleeps, and raised exceptions;
    - [Parse]      [ContentAnalyzer] of parse.py;
    - [Soup]       the document tree of bs4 and the operations scrape.py
                   calls on it;
    - [HtmlParser] the html.parser tree builder on tag-and-text markup;
    - [Scrape]     [extract_body_content] and [clean_body_content];
    - [PySpec], [ParseSpec], [SoupSpec], [ScrapeSpec], [AnalyzerScenarios]
                   the notions and the concrete inputs the theorems use;
    - [PyError], [Startup], [Browser], [Main]  the construction of the
                   analyzer, [scrape_website] and the session of main.py;
    - [ParseFacts], [AnalyzerClaims]  the analyzer, proved;
    - [SoupFacts], [PyFacts], [CleanerClaims]  the cleaner, proved;
    - [RetryFacts], [AnalyzerExtras], [StartupExtras], [BrowserExtras],
      [MainExtras], [CleanerExtras]  further properties of the retry
                   protocol, the start-up, the browser, the session and the
                   cleaned text. *)

From Stdlib Require Import List ZArith NArith Lia String Ascii Bool.
Import ListNotations.

Set Implicit Arguments.

(* ===================================================================== *)
(** ** Python strings *)
(* ===================================================================== *)

Module Py.

(** A Python [str] is a sequence of Unicode code points. *)
Definition char := N.
Definition str := list char.

(** An ASCII literal of the source, code point by code point. *)
Fixpoint lit (s : string) : str :=
  match s with
  | EmptyString => []
  | String a s' => N_of_ascii a :: lit s'
  end.

Definition LF : char := 10%N.
Definition CR : char := 13%N.
(** The double quote, spliced into literals that contain it. *)
Definition DQUOTE : char := 34%N.

(** [len(s)] *)
Definition len (s : str) : Z := Z.of_nat (List.length s).

(** Truthiness of a string: [if s], [if not s]. *)
Definition truthy (s : str) : bool :=
  match s with [] => false | _ :: _ => true end.

(** [s[:n]], negative [n] counting from the end. *)
Definition slice_to (A : Type) (s : list A) (n : Z) : list A :=
  if (0 <=? n)%Z then firstn (Z.to_nat n) s
  else firstn (List.length s - Z.to_nat (- n)) s.

(** [s[n:]] for a negative [n]: the last [-n] items, all of them when there
    are fewer. *)
Definition slice_last (A : Type) (s : list A) (n : nat) : list A :=
  skipn (List.length s - n) s.

(** [str.isspace] on one code point: the characters [str.strip()] removes. *)
Definition isspace (c : char) : bool :=
  ((9 <=? c) && (c <=? 13) || (28 <=? c) && (c <=? 32)
   || (c =? 133) || (c =? 160) || (c =? 5760)
   || (8192 <=? c) && (c <=? 8202)
   || (c =? 8232) || (c =? 8233) || (c =? 8239) || (c =? 8287)
   || (c =? 12288))%N.

(** The line boundaries of [str.splitlines()]. *)
Definition is_linebreak (c : char) : bool :=
  ((10 <=? c) && (c <=? 13) || (28 <=? c) && (c <=? 30)
   || (c =? 133) || (c =? 8232) || (c =? 8233))%N.

Fixpoint lstrip (s : str) : str :=
  match s with
  | [] => []
  | c :: s' => if isspace c then lstrip s' else s
  end.

Definition rstrip (s : str) : str := rev (lstrip (rev s)).

(** [s.strip()] *)
Definition strip (s : str) : str := rstrip (lstrip s).

(** [s.splitlines()]: the lines without their ends; CR LF is one boundary;
    no empty last line after a final boundary. *)
Fixpoint splitlines (s : str) : list str :=
  match s with
  | [] => []
  | c :: s' =>
      let rest := splitlines s' in
      if is_linebreak c then
        [] :: (if (c =? CR)%N
               then match s' with
                    | d :: s'' => if (d =? LF)%N then splitlines s'' else rest
                    | [] => rest
                    end
               else rest)
      else match rest with
           | [] => [[c]]
           | l :: ls => (c :: l) :: ls
           end
  end.

(** [sep.join(xs)] *)
Fixpoint join (sep : str) (xs : list str) : str :=
  match xs with
  | [] => []
  | x :: xs' =>
      match xs' with
      | [] => x
      | _ :: _ => x ++ sep ++ join sep xs'
      end
  end.

Fixpoint startswith (s p : str) : bool :=
  match p, s with
  | [], _ => true
  | _ :: _, [] => false
  | a :: p', b :: s' => (a =? b)%N && startswith s' p'
  end.

(** [p in s] for strings. *)
Fixpoint contains (s p : str) : bool :=
  startswith s p
  || match s with
     | [] => false
     | _ :: s' => contains s' p
     end.

(** [enumerate(xs)], from index [i]. *)
Fixpoint enumerate_from (A : Type) (i : Z) (xs : list A) : list (Z * A) :=
  match xs with
  | [] => []
  | x :: xs' => (i, x) :: enumerate_from (i + 1) xs'
  end.

Definition enumerate (A : Type) (xs : list A) : list (Z * A) :=
  enumerate_from 0 xs.

(** [range(n)] *)
Definition range (n : Z) : list Z :=
  map Z.of_nat (seq 0 (Z.to_nat n)).

End Py.

(* ===================================================================== *)
(** ** Effects of the analyzer: requests, sleeps, exceptions *)
(* ===================================================================== *)

Module Effects.
Import Py.

(** The exception classes the handlers of parse.py tell apart.
    [GoogleAPIError] stands for every API error that is none of the three
    named subclasses; [ValueError] and [OverflowError] are what [time.sleep]
    raises on a length it does not take; [OtherException] is any other
    subclass of [Exception]; [KeyboardInterrupt], [SystemExit] and
    [OtherBaseException] (GeneratorExit, a cancellation) are the exceptions
    that derive from [BaseException] only, which no [except Exception]
    clause catches. *)
Inductive exception_class :=
| ResourceExhausted
| DeadlineExceeded
| ServiceUnavailable
| GoogleAPIError
| ValueError
| OverflowError
| OtherException
| KeyboardInterrupt
| SystemExit
| OtherBaseException.

(** An exception object; [exc_str] is [str(e)]. *)
Record exception := { exc_class : exception_class; exc_str : str }.

(** [isinstance(e, Exception)] *)
Definition is_Exception (e : exception) : bool :=
  match exc_class e with
  | KeyboardInterrupt | SystemExit | OtherBaseException => false
  | _ => true
  end.

(** [prompt_feedback.block_reason]: an integer enum, falsy at 0
    (unspecified); [br_text] is how it formats inside an f-string. *)
Record block_reason := { br_value : Z; br_text : str }.

Definition br_truthy (b : block_reason) : bool := negb (br_value b =? 0)%Z.

(** The response object of the endpoint.  The [text] accessor yields a string
    or raises; [prompt_feedback] is [None] when the object has no such
    attribute. *)
Record response := {
  text : str + exception;
  prompt_feedback : option block_reason
}.

(** What one call of [generate_content] does: return a response object
    ([None] for a falsy one) or raise. *)
Inductive outcome :=
| Returns (r : option response)
| Raises (e : exception).

(** The endpoint: the outcome of the k-th request (k counted from 0), given
    the prompt sent. *)
Definition endpoint := nat -> str -> outcome.

(** What the analyzer did to the outside world. *)
Record world := { requests : list str; sleeps : list Z }.

Definition initial : world := {| requests := []; sleeps := [] |}.

(** Computations that read and extend the world and may raise. *)
Definition M (A : Type) : Type := world -> (A + exception) * world.

Definition ret (A : Type) (a : A) : M A := fun w => (inl a, w).

Definition bind (A B : Type) (m : M A) (k : A -> M B) : M B :=
  fun w =>
    match m w with
    | (inl a, w') => k a w'
    | (inr e, w') => (inr e, w')
    end.

Definition raise (A : Type) (e : exception) : M A := fun w => (inr e, w).

(** [try: m except Exception as e: h e]: what is no [Exception] goes on
    to the caller. *)
Definition try_except (A : Type) (m : M A) (h : exception -> M A) : M A :=
  fun w =>
    match m w with
    | (inl a, w') => (inl a, w')
    | (inr e, w') => if is_Exception e then h e w' else (inr e, w')
    end.

(** A value that is there or raises when accessed. *)
Definition access (A : Type) (v : A + exception) : M A :=
  match v with
  | inl a => ret a
  | inr e => raise A e
  end.

(** [model.generate_content(prompt, ...)]: one request. *)
Definition generate_content (model : endpoint) (prompt : str)
  : M (option response) :=
  fun w =>
    let w' := {| requests := requests w ++ [prompt]; sleeps := sleeps w |} in
    match model (List.length (requests w)) prompt with
    | Returns r => (inl r, w')
    | Raises e => (inr e, w')
    end.

(** The longest sleep, in seconds, whose length in nanoseconds fits the
    64-bit clock of [time.sleep]. *)
Definition SLEEP_MAX : Z := 9223372036.


(** [time.sleep(secs)] for an integer [secs]: a length beyond the clock, in
    either direction, raises OverflowError; a negative one, ValueError. *)
Definition sleep (secs : Z) : M unit :=
  fun w =>
    if ((secs <? - SLEEP_MAX) || (SLEEP_MAX <? secs))%Z
    then (inr {| exc_class := OverflowError;
                 exc_str := lit "timestamp too large to convert to C _PyTime_t" |}, w)
    else if (secs <? 0)%Z
    then (inr {| exc_class := ValueError;
                 exc_str := lit "sleep length must be non-negative" |}, w)
    else (inl tt, {| requests := requests w; sleeps := sleeps w ++ [secs] |}).

End Effects.

Declare Scope py_scope.
Delimit Scope py_scope with py.
Notation "x <- m ;; k" := (Effects.bind m (fun x => k))
  (at level 61, m at next level, right associativity) : py_scope.
Notation "m ;;; k" := (Effects.bind m (fun _ => k))
  (at level 61, right associativity) : py_scope.

(* ===================================================================== *)
(** ** parse.py *)
(* ===================================================================== *)

Module Parse.
Import Py Effects.
Local Open Scope py_scope.

Definition MAX_CONTENT_LENGTH : Z := 700 * 1000.

(** The warning marker that opens every error message: U+26A0 U+FE0F. *)
Definition WARNING : str := [9888%N; 65039%N].

(** [self]: the retry ceiling, the base delay and the model handle. *)
Record ContentAnalyzer := {
  max_retries : Z;
  retry_delay : Z;
  model : endpoint
}.

(** [ContentAnalyzer()] with the defaults of [__init__]. *)
Definition default_analyzer (m : endpoint) : ContentAnalyzer :=
  {| max_retries := 3; retry_delay := 5; model := m |}.

(** The fixed text of the prompt before the content: the role and task
    framing, then the start line. *)
Definition prompt_framing : str :=
  lit "**Role:** You are an AI assistant specialized in analyzing provided web page text content to answer user questions accurately." ++ [LF] ++
  [LF] ++
  lit "**Task:** Analyze the following **Web Page Text Content** and answer the **User Query** based *solely* on the information present in the text." ++ [LF] ++
  [LF] ++
  lit "**Web Page Text Content:**" ++ [LF].

Definition prompt_head : str :=
  prompt_framing ++ lit "--- START ---" ++ [LF].

(** Between the content and the conversation context. *)
Definition prompt_end_marker : str :=
  [LF] ++ lit "--- END ---" ++ [LF].

(** Between the conversation context and the query. *)
Definition prompt_query_label : str :=
  [LF] ++ [LF] ++ lit "**User Query:** ".

(** The fixed instructions after the query. *)
Definition prompt_instructions : str :=
  [LF] ++
  [LF] ++
  lit "**Instructions for Response:**" ++ [LF] ++
  lit "1.  **Base your answer strictly on the provided " ++ [DQUOTE] ++ lit "Web Page Text Content" ++ [DQUOTE] ++ lit ".** Do not use external knowledge or make assumptions." ++ [LF] ++
  lit "2.  **Address the specific " ++ [DQUOTE] ++ lit "User Query" ++ [DQUOTE] ++ lit " directly.**" ++ [LF] ++
  lit "3.  **If the information needed to answer the query is present, extract and synthesize it clearly.** Quote relevant snippets briefly if helpful using markdown blockquotes (`> snippet`)." ++ [LF] ++
  lit "4.  **If the information is *not* found in the text, explicitly state that.** For example: " ++ [DQUOTE] ++ lit "The provided text does not contain information about X." ++ [DQUOTE] ++ [LF] ++
  lit "5.  **Use Markdown formatting** for readability (e.g., headings `##`, lists `* item`, bold `**text**`)." ++ [LF] ++
  lit "6.  **Be objective and factual.**" ++ [LF] ++
  lit "7.  **Provide a comprehensive answer covering all parts of the query if possible within the text.**" ++ [LF] ++
  lit "8.  **Do NOT return an empty response.** If you cannot answer, explain why based on instruction #4." ++ [LF].

(** The label of the i-th line of the context window. *)
Definition role_label (i : Z) : str :=
  if (i mod 2 =? 0)%Z then lit "User" else lit "Assistant".

Definition CONTEXT_HEADING : str :=
  [LF] ++ lit "Previous Conversation Context:" ++ [LF].

(** [_build_prompt]: the context string of lines 150-154. *)
Definition context_str (history : option (list str)) : str :=
  match history with
  | None => []
  | Some [] => []
  | Some ((_ :: _) as h) =>
      let context_lines :=
        map (fun im => role_label (fst im) ++ lit ": " ++ snd im)
            (enumerate (slice_last h 4)) in
      CONTEXT_HEADING ++ join [LF] context_lines
  end.

Definition _build_prompt (content query : str) (history : option (list str))
  : str :=
  prompt_head ++ content ++ prompt_end_marker ++ context_str history
  ++ prompt_query_label ++ query ++ prompt_instructions.

(** How the body of the retry loop ends: by [return v], or by reaching the
    end of the try statement (the retry logic follows). *)
Inductive flow (A : Type) :=
| Return (v : A)
| FallThrough.
Arguments FallThrough {A}.

(** Lines 95-135: one request and the classification of what came back. *)
Definition request_once (self : ContentAnalyzer) (prompt : str)
  : M (flow (option str)) :=
  try_except
    (response <- generate_content (model self) prompt ;;
     match response with
     | None => ret FallThrough
     | Some r =>
         t <- access (text r) ;;
         if truthy t then ret (Return (Some (strip t)))
         else match prompt_feedback r with
              | Some reason =>
                  if br_truthy reason
                  then ret (Return (Some (WARNING ++ lit " Error: Content generation blocked by safety settings or API policy. Reason: " ++ br_text reason)))
                  else ret FallThrough
              | None => ret FallThrough
              end
     end)
    (fun e =>
       match exc_class e with
       | ResourceExhausted =>
           ret (Return (Some (WARNING ++ lit " API Error: Resource limits exceeded. Please check your API quota. (" ++ exc_str e ++ lit ")")))
       | DeadlineExceeded => ret FallThrough
       | ServiceUnavailable => ret FallThrough
       | GoogleAPIError =>
           ret (Return (Some (WARNING ++ lit " API Error: " ++ exc_str e)))
       | ValueError | OverflowError | OtherException => ret FallThrough
       | KeyboardInterrupt | SystemExit | OtherBaseException => raise _ e
       end).

(** Lines 94-146: the loop over [range(self.max_retries)]. *)
Fixpoint retry_loop (self : ContentAnalyzer) (prompt : str)
  (attempts : list Z) : M (option str) :=
  match attempts with
  | [] => ret None
  | attempt :: rest =>
      f <- request_once self prompt ;;
      match f with
      | Return v => ret v
      | FallThrough =>
          if (attempt <? max_retries self - 1)%Z
          then sleep (retry_delay self * 2 ^ attempt) ;;;
               retry_loop self prompt rest
          else ret None
      end
  end.

Definition _process_full_content (self : ContentAnalyzer)
  (content query : str) (history : option (list str)) : M (option str) :=
  let truncated_content :=
    if (len content >? MAX_CONTENT_LENGTH)%Z
    then slice_to content MAX_CONTENT_LENGTH
    else content in
  let prompt := _build_prompt truncated_content query history in
  retry_loop self prompt (range (max_retries self)).

Definition NO_CONTENT : str :=
  WARNING ++ lit " Error: No website content loaded or content is empty.".
Definition EMPTY_QUERY : str :=
  WARNING ++ lit " Error: Query cannot be empty.".
Definition ANALYSIS_FAILED : str :=
  WARNING ++ lit " Analysis failed after multiple retries or returned no relevant content.".

Definition analyze_content (self : ContentAnalyzer)
  (full_content query : str) (chat_history : option (list str)) : M str :=
  try_except
    (if negb (truthy full_content) then ret NO_CONTENT
     else if negb (truthy query) then ret EMPTY_QUERY
     else
       response_text <- _process_full_content self full_content query chat_history ;;
       match response_text with
       | Some t => if truthy t then ret t else ret ANALYSIS_FAILED
       | None => ret ANALYSIS_FAILED
       end)
    (fun e => ret (WARNING ++ lit " Critical Error during analysis: " ++ exc_str e)).

End Parse.

(* ===================================================================== *)
(** ** The document tree of bs4 *)
(* ===================================================================== *)

Module Soup.
Import Py.

(** The classes of string a parse tree holds. *)
Inductive string_type :=
| NavigableString
| CData
| Comment
| Declaration
| Doctype
| ProcessingInstruction
| Script
| Stylesheet
| TemplateString
| RubyTextString
| RubyParenthesisString.

(** An attribute as [decode] renders it: the key and, unless the attribute
    is valueless, its value (a multi-valued one with its items joined by one
    space). *)
Definition attr := (str * option str)%type.

(** A page element: a tag, with the identity of the Python object, its name,
    its attributes in rendering order and its contents; or a string. *)
#[local] Unset Elimination Schemes.
Inductive node :=
| Tag (id : nat) (name : str) (attrs : list attr) (contents : list node)
| Text (ty : string_type) (s : str).

#[local] Set Elimination Schemes.

(** The [BeautifulSoup] object, by its contents. *)
Definition soup := list node.

Fixpoint str_eqb (a b : str) : bool :=
  match a, b with
  | [], [] => true
  | x :: a', y :: b' => (x =? y)%N && str_eqb a' b'
  | _, _ => false
  end.

(** [name in names] *)
Definition name_in (name : str) (names : list str) : bool :=
  existsb (str_eqb name) names.

Section FirstSome.
Variables (A B : Type) (f : A -> option B).
Fixpoint first_some (l : list A) : option B :=
  match l with
  | [] => None
  | x :: l' =>
      match f x with
      | Some y => Some y
      | None => first_some l'
      end
  end.
End FirstSome.

(** [soup(names)], that is [find_all]: the tags whose name is listed, in
    document order, as object identities. *)
Fixpoint find_all_node (names : list str) (n : node) : list nat :=
  match n with
  | Tag i name _ contents =>
      (if name_in name names then [i] else [])
      ++ flat_map (find_all_node names) contents
  | Text _ _ => []
  end.

Definition find_all (names : list str) (s : soup) : list nat :=
  flat_map (find_all_node names) s.

(** [tag.decompose()]: the tag leaves the tree with everything below it.
    Nothing happens when the tag is no longer in the tree. *)
Fixpoint decompose_node (tag : nat) (n : node) : list node :=
  match n with
  | Tag i name attrs contents =>
      if (i =? tag)%nat then []
      else [Tag i name attrs (flat_map (decompose_node tag) contents)]
  | Text _ _ => [n]
  end.

Definition decompose (tag : nat) (s : soup) : soup :=
  flat_map (decompose_node tag) s.

(** The string classes [get_text] yields by default. *)
Definition interesting (ty : string_type) : bool :=
  match ty with
  | NavigableString | CData => true
  | _ => false
  end.

(** [_all_strings(strip)]: the strings below, in document order; with
    [strip], each stripped and the empty ones skipped. *)
Fixpoint all_strings_node (strip_ : bool) (n : node) : list str :=
  match n with
  | Tag _ _ _ contents => flat_map (all_strings_node strip_) contents
  | Text ty s =>
      if interesting ty then
        if strip_ then
          let stripped := strip s in
          if (len stripped =? 0)%Z then [] else [stripped]
        else [s]
      else []
  end.

Definition all_strings (strip_ : bool) (s : soup) : list str :=
  flat_map (all_strings_node strip_) s.

(** [soup.get_text(separator, strip)] *)
Definition get_text (separator : str) (strip_ : bool) (s : soup) : str :=
  join separator (all_strings strip_ s).

(** [tag.find(name)], which is what [soup.body] stands for: the first tag of
    that name in document order. *)
Fixpoint find_node (name : str) (n : node) : option node :=
  match n with
  | Tag _ nm _ contents =>
      if str_eqb nm name then Some n
      else first_some (find_node name) contents
  | Text _ _ => None
  end.

Definition find (name : str) (s : soup) : option node :=
  first_some (find_node name) s.

(** *** Serialization: [str(tag)], the [minimal] formatter *)

Definition LT : char := 60%N.
Definition GT : char := 62%N.
Definition AMP : char := 38%N.
Definition SLASH : char := 47%N.
Definition SQUOTE : char := 39%N.

(** [&], [<] and [>] become entities. *)
Definition substitute_xml (s : str) : str :=
  flat_map (fun c =>
              if (c =? AMP)%N then lit "&amp;"
              else if (c =? LT)%N then lit "&lt;"
              else if (c =? GT)%N then lit "&gt;"
              else [c]) s.

Definition has_char (c : char) (s : str) : bool := existsb (N.eqb c) s.

Definition quoted_attribute_value (value : str) : str :=
  if has_char DQUOTE value then
    if has_char SQUOTE value
    then [DQUOTE]
           ++ flat_map (fun c => if (c =? DQUOTE)%N then lit "&quot;" else [c]) value
           ++ [DQUOTE]
    else [SQUOTE] ++ value ++ [SQUOTE]
  else [DQUOTE] ++ value ++ [DQUOTE].

Definition decode_attr (a : attr) : str :=
  match a with
  | (key, None) => key
  | (key, Some val) =>
      key ++ lit "=" ++ quoted_attribute_value (substitute_xml val)
  end.

(** A space before each attribute. *)
Definition attribute_string (attrs : list attr) : str :=
  flat_map (fun a => lit " " ++ decode_attr a) attrs.

(** The elements that cannot have contents. *)
Definition void_elements : list str :=
  map lit ["area"; "base"; "br"; "col"; "embed"; "hr"; "img"; "input";
           "keygen"; "link"; "menuitem"; "meta"; "param"; "source"; "track";
           "wbr"; "basefont"; "bgsound"; "command"; "frame"; "image";
           "isindex"; "nextid"; "spacer"]%string.

(** The elements whose strings are written out without substitution. *)
Definition cdata_containing_tags : list str :=
  map lit ["script"; "style"]%string.

(** [string.output_ready(formatter)], given whether the parent is one of
    [cdata_containing_tags]. *)
Definition output_ready (parent_cdata : bool) (ty : string_type) (s : str)
  : str :=
  match ty with
  | Comment => lit "<!--" ++ s ++ lit "-->"
  | CData => lit "<![CDATA[" ++ s ++ lit "]]>"
  | ProcessingInstruction => lit "<?" ++ s ++ lit ">"
  | Declaration => lit "<?" ++ s ++ lit "?>"
  | Doctype => lit "<!DOCTYPE " ++ s ++ lit ">" ++ [LF]
  | _ => if parent_cdata then s else substitute_xml s
  end.

(** [tag.decode()] *)
Fixpoint decode_node (parent_cdata : bool) (n : node) : str :=
  match n with
  | Tag _ name attrs contents =>
      match contents with
      | [] =>
          if name_in name void_elements
          then lit "<" ++ name ++ attribute_string attrs ++ lit "/>"
          else lit "<" ++ name ++ attribute_string attrs ++ lit ">"
               ++ lit "</" ++ name ++ lit ">"
      | _ :: _ =>
          lit "<" ++ name ++ attribute_string attrs ++ lit ">"
          ++ flat_map (decode_node (name_in name cdata_containing_tags)) contents
          ++ lit "</" ++ name ++ lit ">"
      end
  | Text ty s => output_ready parent_cdata ty s
  end.

(** [tag.decode_contents()]: the markup inside a tag. *)
Definition decode_contents (n : node) : str :=
  match n with
  | Tag _ name _ contents =>
      flat_map (decode_node (name_in name cdata_containing_tags)) contents
  | Text _ _ => []
  end.

(** [str(tag)] *)
Definition decode (n : node) : str := decode_node false n.

End Soup.

(* ===================================================================== *)
(** ** The html.parser tree builder, on a fragment of markup *)
(* ===================================================================== *)

(** [BeautifulSoup(markup, 'html.parser')] for markup made of start tags
    without attributes, end tags, the references [&lt;], [&gt;], [&amp;] and
    character data.  Tag names are lower-case letters and digits, and are not
    among the elements the parser or the builder treats specially.
    Everything else is outside the fragment: [None]. *)
Module HtmlParser.
Import Py Soup.

(** A tag that was opened and not yet closed: identity, name, and the
    contents so far, last first. *)
Record open_tag := { t_id : nat; t_name : str; t_contents : list node }.

(** The builder: the contents of the document so far (last first), the open
    tags (innermost first), the character data not yet turned into a string,
    and the identity of the next tag. *)
Record builder := {
  root : list node;
  tagStack : list open_tag;
  current_data : str;
  next_id : nat
}.

Definition start : builder :=
  {| root := []; tagStack := []; current_data := []; next_id := 0 |}.

Definition ASCII_SPACES : list char := [32; 10; 9; 12; 13]%N.

(** Character data that is all ASCII white space becomes one newline or one
    space. *)
Definition collapse (data : str) : str :=
  if forallb (fun c => has_char c ASCII_SPACES) data
  then if has_char LF data then [LF] else lit " "
  else data.

(** Appends a finished element to the innermost open tag, or to the
    document. *)
Definition append (n : node) (stack : list open_tag) (rt : list node)
  : list open_tag * list node :=
  match stack with
  | [] => ([], n :: rt)
  | t :: ts =>
      ({| t_id := t_id t; t_name := t_name t;
          t_contents := n :: t_contents t |} :: ts, rt)
  end.

Definition endData (b : builder) : builder :=
  match current_data b with
  | [] => b
  | _ :: _ =>
      let (stack, rt) :=
        append (Text NavigableString (collapse (current_data b)))
               (tagStack b) (root b) in
      {| root := rt; tagStack := stack; current_data := [];
         next_id := next_id b |}
  end.

Definition handle_data (data : str) (b : builder) : builder :=
  {| root := root b; tagStack := tagStack b;
     current_data := current_data b ++ data; next_id := next_id b |}.

Definition handle_starttag (name : str) (b : builder) : builder :=
  let b := endData b in
  {| root := root b;
     tagStack := {| t_id := next_id b; t_name := name; t_contents := [] |}
                 :: tagStack b;
     current_data := [];
     next_id := S (next_id b) |}.

Definition close_tag (t : open_tag) (last_child : option node) : node :=
  Tag (t_id t) (t_name t) []
      (rev (match last_child with
            | Some n => n :: t_contents t
            | None => t_contents t
            end)).

(** [_popToTag(name)] once a tag of that name is known to be open: pops up
    to and including the innermost one.  [child] is the tag popped just
    before, still to be appended to its parent. *)
Fixpoint pop_to (name : str) (stack : list open_tag) (child : option node)
  (rt : list node) : list open_tag * list node :=
  match stack with
  | [] =>
      ([], match child with Some n => n :: rt | None => rt end)
  | t :: ts =>
      let n := close_tag t child in
      if str_eqb (t_name t) name then append n ts rt
      else pop_to name ts (Some n) rt
  end.

Definition handle_endtag (name : str) (b : builder) : builder :=
  let b := endData b in
  if existsb (fun t => str_eqb (t_name t) name) (tagStack b)
  then let (stack, rt) := pop_to name (tagStack b) None (root b) in
       {| root := rt; tagStack := stack; current_data := [];
          next_id := next_id b |}
  else b.

(** The end of the markup: the pending data, then every open tag is popped. *)
Fixpoint pop_all (stack : list open_tag) (child : option node)
  (rt : list node) : list node :=
  match stack with
  | [] => match child with Some n => n :: rt | None => rt end
  | t :: ts => pop_all ts (Some (close_tag t child)) rt
  end.

Definition finish (b : builder) : soup :=
  let b := endData b in
  rev (pop_all (tagStack b) None (root b)).

(** Where the tokenizer is. *)
Inductive mode :=
| Data
| TagOpen
| StartName (name : str)
| EndTagOpen
| EndName (name : str)
| Reference (name : str).

Definition is_lower (c : char) : bool := ((97 <=? c) && (c <=? 122))%N.
Definition is_digit (c : char) : bool := ((48 <=? c) && (c <=? 57))%N.

(** The elements left out of the fragment: the void elements, those whose
    content the parser or the builder reads in a mode of its own, and those
    whose text the builder stores in a string class of its own (Script,
    Stylesheet, TemplateString, RubyTextString, RubyParenthesisString),
    which [get_text] leaves out. *)
Definition special_elements : list str :=
  void_elements
  ++ map lit ["script"; "style"; "xmp"; "iframe"; "noembed"; "noframes";
              "textarea"; "title"; "plaintext"; "pre";
              "template"; "rt"; "rp"]%string.

Definition step (st : mode * builder) (c : char) : option (mode * builder) :=
  let (m, b) := st in
  match m with
  | Data =>
      if (c =? LT)%N then Some (TagOpen, b)
      else if (c =? AMP)%N then Some (Reference [], b)
      else Some (Data, handle_data [c] b)
  | TagOpen =>
      if is_lower c then Some (StartName [c], b)
      else if (c =? SLASH)%N then Some (EndTagOpen, b)
      else None
  | StartName name =>
      if is_lower c || is_digit c then Some (StartName (name ++ [c]), b)
      else if (c =? GT)%N then
        if name_in name special_elements then None
        else Some (Data, handle_starttag name b)
      else None
  | EndTagOpen =>
      if is_lower c then Some (EndName [c], b) else None
  | EndName name =>
      if is_lower c || is_digit c then Some (EndName (name ++ [c]), b)
      else if (c =? GT)%N then
        if name_in name special_elements then None
        else Some (Data, handle_endtag name b)
      else None
  | Reference name =>
      if is_lower c then Some (Reference (name ++ [c]), b)
      else if (c =? 59)%N then
        if str_eqb name (lit "lt") then Some (Data, handle_data [LT] b)
        else if str_eqb name (lit "gt") then Some (Data, handle_data [GT] b)
        else if str_eqb name (lit "amp") then Some (Data, handle_data [AMP] b)
        else None
      else None
  end.

Fixpoint feed (markup : str) (st : mode * builder) : option (mode * builder) :=
  match markup with
  | [] => Some st
  | c :: markup' =>
      match step st c with
      | Some st' => feed markup' st'
      | None => None
      end
  end.

Definition BeautifulSoup (markup : str) : option soup :=
  match feed markup (Data, start) with
  | Some (Data, b) => Some (finish b)
  | _ => None
  end.

End HtmlParser.

(* ===================================================================== *)
(** ** scrape.py *)
(* ===================================================================== *)

Module Scrape.
Import Py Soup.

Definition DENYLIST : list str :=
  map lit ["script"; "style"; "meta"; "link"; "header"; "footer"; "nav";
           "aside"; "form"; "button"; "iframe"; "noscript"]%string.

Section WithParser.

(** [BeautifulSoup(markup, 'html.parser')]; [None] where the parse of the
    markup is not modelled. *)
Variable BeautifulSoup : str -> option soup.

Definition extract_body_content (html : str) : option str :=
  if negb (truthy html) then Some []
  else
    match BeautifulSoup html with
    | None => None
    | Some soup =>
        match find (lit "body") soup with
        | Some body => Some (decode body)
        | None => Some []
        end
    end.

Definition clean_body_content (body_html : str) : option str :=
  if negb (truthy body_html) then Some []
  else
    match BeautifulSoup body_html with
    | None => None
    | Some soup =>
        let soup :=
          fold_left (fun sp tag => decompose tag sp)
                    (find_all DENYLIST soup) soup in
        let text := get_text [LF] true soup in
        let cleaned_text :=
          join [LF] (filter (fun line => truthy (strip line))
                            (splitlines text)) in
        Some cleaned_text
    end.

End WithParser.

End Scrape.

(* ===================================================================== *)
(** * Notions the theorems are stated with *)
(* ===================================================================== *)

Unset Implicit Arguments.

(** ** Strings *)

Module PySpec.
Import Py.

(** The string does not start, or does not end, with white space. *)
Definition head_ok (s : str) : bool :=
  match s with
  | [] => true
  | c :: _ => negb (isspace c)
  end.

Definition last_ok (s : str) : bool := head_ok (rev s).

(** No line boundary inside. *)
Definition one_line (s : str) : bool :=
  forallb (fun c => negb (is_linebreak c)) s.

(** The filter of [clean_body_content]. *)
Definition nonblank (line : str) : bool := truthy (strip line).

End PySpec.

(** ** The analyzer *)

Module ParseSpec.
Import Py Effects Parse.
Local Open Scope Z_scope.

(** The content that reaches the prompt, and the prompt of one analysis. *)
Definition embedded_content (content : str) : str :=
  if len content >? MAX_CONTENT_LENGTH
  then slice_to content MAX_CONTENT_LENGTH
  else content.

Definition sent_prompt (content query : str) (history : option (list str))
  : str :=
  _build_prompt (embedded_content content) query history.

(** The exception that leaves the loop body, if any: one that is no
    [Exception], raised by the call or by the [text] accessor. *)
Definition escapes (o : outcome) : option exception :=
  match o with
  | Raises e => if is_Exception e then None else Some e
  | Returns None => None
  | Returns (Some r) =>
      match text r with
      | inr e => if is_Exception e then None else Some e
      | inl _ => None
      end
  end.

(** What the handlers of the loop body make of an exception they catch. *)
Definition on_exception (e : exception) : flow (option str) :=
  match exc_class e with
  | ResourceExhausted =>
      Return (Some (WARNING ++ lit " API Error: Resource limits exceeded. Please check your API quota. (" ++ exc_str e ++ lit ")"))
  | GoogleAPIError => Return (Some (WARNING ++ lit " API Error: " ++ exc_str e))
  | _ => FallThrough
  end.

(** What the loop body makes of one outcome of the endpoint. *)
Definition classify (o : outcome) : flow (option str) :=
  match o with
  | Raises e => on_exception e
  | Returns None => FallThrough
  | Returns (Some r) =>
      match text r with
      | inr e => on_exception e
      | inl t =>
          if truthy t then Return (Some (strip t))
          else match prompt_feedback r with
               | Some reason =>
                   if br_truthy reason
                   then Return (Some (WARNING ++ lit " Error: Content generation blocked by safety settings or API policy. Reason: " ++ br_text reason))
                   else FallThrough
               | None => FallThrough
               end
      end
  end.


Definition after_request (w : world) (prompt : str) : world :=
  {| requests := requests w ++ [prompt]; sleeps := sleeps w |}.


(** A returned string is genuine when it is the stripped, truthy text of a
    response the endpoint gave to this prompt. *)
Definition genuine (self : ContentAnalyzer) (prompt s : str) : Prop :=
  exists (k : nat) (r : response) (t : str),
    model self k prompt = Returns (Some r) /\ text r = inl t
    /\ truthy t = true /\ s = strip t.

Definition marked (s : str) : Prop := startswith s WARNING = true.

End ParseSpec.

(** ** Endpoints and inputs of the analyzer scenarios *)

Module AnalyzerScenarios.
Import Py Effects Parse.
Local Open Scope Z_scope.

(** Two timeouts, then an answer. *)
Definition timeout_exc : exception :=
  {| exc_class := DeadlineExceeded; exc_str := lit "504 Deadline Exceeded" |}.
Definition answer (t : str) : response :=
  {| text := inl t; prompt_feedback := None |}.
Definition flaky_model (t : str) : endpoint :=
  fun k _ => match k with
             | 0%nat | 1%nat => Raises timeout_exc
             | _ => Returns (Some (answer t))
             end.



(** An endpoint whose call is interrupted from the keyboard. *)
Definition interrupt : exception :=
  {| exc_class := KeyboardInterrupt; exc_str := [] |}.
Definition interrupted_model : endpoint := fun _ _ => Raises interrupt.


(** A history of five messages. *)
Definition five_messages : list str :=
  [lit "m0"; lit "m1"; lit "m2"; lit "m3"; lit "m4"].

End AnalyzerScenarios.

(** ** The document tree *)

Module SoupSpec.
Import Py Soup.

(** Induction over a tree of page elements. *)
Section NodeInd.
Variable P : node -> Prop.
Hypothesis P_text : forall ty s, P (Text ty s).
Hypothesis P_tag :
  forall i name attrs contents, Forall P contents -> P (Tag i name attrs contents).

Fixpoint node_ind (n : node) : P n :=
  match n with
  | Text ty s => P_text ty s
  | Tag i name attrs contents =>
      P_tag i name attrs contents
        ((fix all (l : list node) : Forall P l :=
            match l with
            | [] => Forall_nil P
            | x :: l' => Forall_cons x (node_ind x) (all l')
            end) contents)
  end.
End NodeInd.

(** Every tag of a tree, in document order, with its identity and name. *)
Fixpoint tags_node (n : node) : list (nat * str) :=
  match n with
  | Tag i name _ contents => (i, name) :: flat_map tags_node contents
  | Text _ _ => []
  end.

Definition tags (s : soup) : list (nat * str) := flat_map tags_node s.

Definition tag_ids (s : soup) : list nat := map fst (tags s).

Fixpoint distinct (l : list nat) : bool :=
  match l with
  | [] => true
  | x :: l' => negb (existsb (Nat.eqb x) l') && distinct l'
  end.

(** Object identities are pairwise distinct. *)
Definition unique_ids (s : soup) : bool := distinct (tag_ids s).

Definition mem (i : nat) (ids : list nat) : bool := existsb (Nat.eqb i) ids.

(** The tree without the tags of the given identities. *)
Fixpoint remove_ids_node (ids : list nat) (n : node) : list node :=
  match n with
  | Tag i name attrs contents =>
      if mem i ids then []
      else [Tag i name attrs (flat_map (remove_ids_node ids) contents)]
  | Text _ _ => [n]
  end.

Definition remove_ids (ids : list nat) (s : soup) : soup :=
  flat_map (remove_ids_node ids) s.

(** The strings of the classes [get_text] reads that lie under no tag of a
    listed name. *)
Fixpoint visible_node (names : list str) (n : node) : list str :=
  match n with
  | Tag _ name _ contents =>
      if name_in name names then []
      else flat_map (visible_node names) contents
  | Text ty s => if interesting ty then [s] else []
  end.

Definition visible_strings (names : list str) (s : soup) : list str :=
  flat_map (visible_node names) s.

(** Each string stripped, the empty results dropped. *)
Definition stripped (l : list str) : list str :=
  filter truthy (map strip l).

(** A set of identities picks the tags of the listed names. *)
Definition picks (ids : list nat) (names : list str) (l : list (nat * str))
  : Prop :=
  forall i name, In (i, name) l -> mem i ids = name_in name names.

End SoupSpec.

(** ** The text cleaner *)

Module ScrapeSpec.
Import Py Soup Scrape PySpec SoupSpec.

(** The post-processing of [clean_body_content]: the blank lines go. *)
Definition collapse_blank_lines (text : str) : str :=
  join [LF] (filter nonblank (splitlines text)).

(** What [clean_body_content] computes from a parsed document. *)
Definition cleaned (sp : soup) : str :=
  collapse_blank_lines (join [LF] (stripped (visible_strings DENYLIST sp))).

(** Text with no [<] and no [&]. *)
Definition markup_free (s : str) : bool :=
  forallb (fun c => negb (c =? LT)%N && negb (c =? AMP)%N) s.

(** The page of the scenario. *)
Definition hello_page : str :=
  lit "<body><nav>Menu</nav><p>Hello <b>World</b></p></body>".

(** A page whose text spells markup. *)
Definition escaped_page : str := lit "&lt;b&gt;hi&lt;/b&gt;".

(** A string as [get_text] yields it with [strip]: non-empty, no white
    space at either end. *)
Definition trimmed (t : str) : Prop :=
  t <> [] /\ head_ok t = true /\ last_ok t = true.

End ScrapeSpec.

(** ** More notions for the analyzer *)

Module RetrySpec.
Import Py Effects Parse.
Local Open Scope Z_scope.




(** An endpoint that always times out. *)
Definition dead_model : endpoint :=
  fun _ _ => Raises {| exc_class := DeadlineExceeded;
                       exc_str := lit "504 Deadline Exceeded" |}.




(** 700,000 characters, the longest content that is sent whole. *)
Definition full_page : str := repeat 97%N (Z.to_nat 700000).

End RetrySpec.

(* ===================================================================== *)
(** * Start-up, the browser and the session *)
(* ===================================================================== *)

(** ** Exceptions outside the retry loop *)

Module PyError.
Import Py.

(** The classes the code raises or tells apart outside the retry loop;
    [OtherError] is any other subclass of [Exception]; [KeyboardInterrupt],
    [SystemExit] and [OtherBaseException] derive from [BaseException]
    only. *)
Inductive error_class :=
| RuntimeError
| ValueError
| gaierror
| OtherError
| KeyboardInterrupt
| SystemExit
| OtherBaseException.

(** An exception object; [err_str] is [str(e)]. *)
Record error := { err_class : error_class; err_str : str }.

Definition is_RuntimeError (e : error) : bool :=
  match err_class e with RuntimeError => true | _ => false end.

(** [isinstance(e, Exception)] *)
Definition is_Exception (e : error) : bool :=
  match err_class e with
  | KeyboardInterrupt | SystemExit | OtherBaseException => false
  | _ => true
  end.

End PyError.

(** ** parse.py: the construction of the analyzer *)

Module Startup.
Import Py Effects Parse PyError.

(** What the process finds around it: the outcome of the name lookup, the
    environment variable, and what the client library does. *)
Record environment := {
  getaddrinfo : unit + error;
  GOOGLE_API_KEY : option str;
  configure : str -> unit + error;
  GenerativeModel : endpoint + error
}.

(** The calls made to the outside, in order. *)
Inductive call :=
| Getaddrinfo (host : str) (port : Z)
| Configure (api_key : str)
| NewModel (name : str).

Definition HOST : str := lit "generativelanguage.googleapis.com".
Definition MODEL_NAME : str := lit "gemini-1.5-flash-latest".

(** [if not self.api_key]: the variable is unset or empty. *)
Definition key_missing (k : option str) : bool :=
  match k with
  | None => true
  | Some s => negb (truthy s)
  end.

(** [_initialize_model], lines 28-54. *)
Definition _initialize_model (env : environment) (api_key : option str)
  : (endpoint + error) * list call :=
  match getaddrinfo env with
  | inr e =>
      match err_class e with
      | gaierror =>
          (inr {| err_class := RuntimeError;
                  err_str := lit "DNS resolution failed. Check network config" |},
           [Getaddrinfo HOST 443])
      | _ => (inr e, [Getaddrinfo HOST 443])
      end
  | inl _ =>
      match api_key with
      | None =>
          (inr {| err_class := ValueError;
                  err_str := lit "GOOGLE_API_KEY missing in .env" |},
           [Getaddrinfo HOST 443])
      | Some key =>
          if negb (truthy key) then
            (inr {| err_class := ValueError;
                    err_str := lit "GOOGLE_API_KEY missing in .env" |},
             [Getaddrinfo HOST 443])
          else
            match configure env key with
            | inr e => (inr e, [Getaddrinfo HOST 443; Configure key])
            | inl _ =>
                match GenerativeModel env with
                | inl m =>
                    (inl m, [Getaddrinfo HOST 443; Configure key;
                             NewModel MODEL_NAME])
                | inr e =>
                    (* except Exception as e *)
                    (if PyError.is_Exception e
                     then inr {| err_class := RuntimeError;
                                 err_str := lit "Model init failed: " ++ err_str e |}
                     else inr e,
                     [Getaddrinfo HOST 443; Configure key; NewModel MODEL_NAME])
                end
            end
      end
  end.

(** [ContentAnalyzer(max_retries, retry_delay)], lines 22-26. *)
Definition __init__ (env : environment) (max_retries retry_delay : Z)
  : (ContentAnalyzer + error) * list call :=
  let api_key := GOOGLE_API_KEY env in
  match _initialize_model env api_key with
  | (inl m, calls) =>
      (inl {| Parse.max_retries := max_retries;
              Parse.retry_delay := retry_delay;
              Parse.model := m |}, calls)
  | (inr e, calls) => (inr e, calls)
  end.

End Startup.

(** ** scrape.py: the browser *)

Module Browser.
Import Py PyError.

(** What the driver does when asked: each operation succeeds or raises. *)
Record driver := {
  launch : unit + error;
  set_page_load_timeout : unit + error;
  get : str -> unit + error;
  page_source : str + error;
  quit : unit + error
}.

(** The operations asked of the driver and the clock, in order. *)
Inductive call :=
| Launch
| SetPageLoadTimeout (secs : Z)
| Get (url : str)
| Sleep (secs : Z)
| PageSource
| Quit.

Definition QUOTE : char := 39%N.

(** The body of the second try statement, lines 31-38. *)
Definition fetch (d : driver) (url : str) : (str + error) * list call :=
  match get d url with
  | inr e => (inr e, [Get url])
  | inl _ =>
      match page_source d with
      | inr e => (inr e, [Get url; Sleep 5; PageSource])
      | inl s => (inl s, [Get url; Sleep 5; PageSource])
      end
  end.

(** The handler of the first try statement, lines 26-28: what is caught,
    an [Exception], is raised again as a RuntimeError; anything else goes on
    as it is. *)
Definition driver_failure (e : error) : error :=
  if PyError.is_Exception e
  then {| err_class := RuntimeError;
          err_str := lit "Failed to initialize Chrome Driver. Is chromedriver.exe in the correct path and executable? Error: " ++ err_str e |}
  else e.

(** The handler of the second try statement, lines 39-41. *)
Definition scrape_failure (url : str) (e : error) : error :=
  if PyError.is_Exception e
  then {| err_class := RuntimeError;
          err_str := lit "Failed to scrape URL " ++ [QUOTE] ++ url
                       ++ [QUOTE] ++ lit ". Error: " ++ err_str e |}
  else e.

(** [scrape_website], lines 11-43. *)
Definition scrape_website (d : driver) (url : str)
  : (str + error) * list call :=
  match launch d with
  | inr e => (inr (driver_failure e), [Launch])
  | inl _ =>
      match set_page_load_timeout d with
      | inr e => (inr (driver_failure e), [Launch; SetPageLoadTimeout 30])
      | inl _ =>
          let (r, calls) := fetch d url in
          let outcome :=
            match r with
            | inl s => inl s
            | inr e => inr (scrape_failure url e)
            end in
          (* finally: driver.quit() *)
          match quit d with
          | inl _ =>
              (outcome, [Launch; SetPageLoadTimeout 30] ++ calls ++ [Quit])
          | inr e =>
              (inr e, [Launch; SetPageLoadTimeout 30] ++ calls ++ [Quit])
          end
      end
  end.

End Browser.

(** ** main.py: the session *)

Module Main.
Import Py Effects Parse Soup Scrape PyError Browser.

(** An entry of the chat history: the dict with keys "role" and "content". *)
Record message := { role : str; content : str }.

(** [st.session_state] *)
Record session_state := {
  chat_history : list message;
  dom_content : str;
  website_url : str
}.

(** Lines 11-16: the state of a new session. *)
Definition new_session : session_state :=
  {| chat_history := []; dom_content := []; website_url := [] |}.

(** What the page shows. *)
Inductive ui :=
| Success (s : str)
| Warning (s : str)
| Error (s : str)
| Markdown (s : str).

Definition USER : str := lit "user".
Definition ASSISTANT : str := lit "assistant".

Definition CHECK_MARK : str := [9989%N].
Definition BRAIN : str := [129504%N].

(** [url.startswith(('http://', 'https://'))] *)
Definition has_scheme (url : str) : bool :=
  startswith url (lit "http://") || startswith url (lit "https://").

Section WithCollaborators.

(** The markup parser and the browser driver. *)
Variable BeautifulSoup : str -> option soup.
Variable d : driver.

(** Lines 56-75: scraping, extraction and cleaning of one page, into a
    session whose content and history were cleared.  [None] where the pass
    does not come to its end here: the parse of the page is not modelled, or
    the scrape raised what neither handler catches, an exception that is no
    [Exception], which leaves the script. *)
Definition load_page (ss : session_state)
  : option (session_state * list ui * list call) :=
  match scrape_website d (website_url ss) with
  | (inl html, calls) =>
      match extract_body_content BeautifulSoup html with
      | None => None
      | Some body_content =>
          match clean_body_content BeautifulSoup body_content with
          | None => None
          | Some text =>
              Some ({| chat_history := chat_history ss;
                       dom_content := text;
                       website_url := website_url ss |},
                    [if truthy text
                     then Success (CHECK_MARK ++ lit " Website content loaded and cleaned!")
                     else Warning (WARNING ++ lit " Content loaded, but it appears empty after cleaning. The page might be dynamic or lack text.")],
                    calls)
          end
      end
  | (inr e, calls) =>
      if is_RuntimeError e
      then Some (ss, [Error (lit "Scraping Error: " ++ err_str e)], calls)
      else if PyError.is_Exception e
      then Some (ss, [Error (lit "An unexpected error occurred: " ++ err_str e)],
                 calls)
      else None
  end.

(** Lines 45-79: the URL field and the load button.  [typed_url] is what the
    field holds, [clicked] whether the button was pressed; the button is
    disabled, and so never pressed, without an analyzer.  [None] as for
    [load_page]. *)
Definition sidebar (initialized : bool) (typed_url : str) (clicked : bool)
  (ss : session_state) : option (session_state * list ui * list call) :=
  let ss := {| chat_history := chat_history ss;
               dom_content := dom_content ss;
               website_url := typed_url |} in
  if clicked && initialized then
    if truthy (website_url ss) && has_scheme (website_url ss) then
      load_page {| chat_history := [];
                   dom_content := [];
                   website_url := website_url ss |}
    else if negb (truthy (website_url ss)) then
      Some (ss, [Warning (lit "Please enter a URL.")], [])
    else
      Some (ss, [Warning (lit "Please enter a valid URL starting with http:// or https://")], [])
  else Some (ss, [], []).

End WithCollaborators.

(** Lines 118-119: the history handed to the analyzer: the contents of the
    entries that are not the user's, then those of the user's entries without
    the last one. *)
Definition history_for_model (history : list message) : list str :=
  map content (filter (fun msg => negb (Soup.str_eqb (role msg) USER)) history)
  ++ slice_to
       (map content (filter (fun msg => Soup.str_eqb (role msg) USER) history))
       (-1).

(** Lines 102-140: the chat input.  [analyzer] is [None] when the
    construction failed; [typed] is what was submitted, if anything; a
    disabled input submits nothing.  The handler of line 136 catches an
    [Exception]; anything else the analysis raises leaves the script. *)
Definition chat (analyzer : option ContentAnalyzer) (typed : option str)
  (ss : session_state) : M (session_state * list ui) :=
  let chat_input_disabled :=
    match analyzer with
    | None => true
    | Some _ => negb (truthy (dom_content ss))
    end in
  let prompt := if chat_input_disabled then None else typed in
  match analyzer, prompt with
  | Some self, Some (c :: p) =>
      let prompt := c :: p in
      let ss := {| chat_history :=
                     chat_history ss ++ [{| role := USER; content := prompt |}];
                   dom_content := dom_content ss;
                   website_url := website_url ss |} in
      let shown := [Markdown prompt; Markdown (BRAIN ++ lit " Analyzing...")] in
      try_except
        (bind (analyze_content self (dom_content ss) prompt
                               (Some (history_for_model (chat_history ss))))
              (fun response =>
                 if startswith response WARNING
                 then ret (ss, shown ++ [Error response])
                 else
                   ret ({| chat_history :=
                             chat_history ss
                             ++ [{| role := ASSISTANT; content := response |}];
                           dom_content := dom_content ss;
                           website_url := website_url ss |},
                        shown ++ [Markdown response])))
        (fun e =>
           ret (ss, shown ++ [Error (lit "An unexpected error occurred during analysis: " ++ exc_str e)]))
  | _, _ => ret (ss, [])
  end.

(** Lines 144-147: the preview of the cleaned text, when there is one. *)
Definition preview (ss : session_state) : option str :=
  if truthy (dom_content ss)
  then Some (slice_to (dom_content ss) 5000
             ++ (if (len (dom_content ss) >? 5000)%Z then lit "..." else []))
  else None.

End Main.

(** ** Environments and drivers of the scenarios *)

Module StartupScenarios.
Import Py Effects PyError Startup Browser.

(** Everything is in place. *)
Definition good_env (m : endpoint) : environment :=
  {| getaddrinfo := inl tt;
     GOOGLE_API_KEY := Some (lit "AIza-key");
     configure := fun _ => inl tt;
     GenerativeModel := inl m |}.

(** A browser that works and shows the given page. *)
Definition good_driver (page : str) : driver :=
  {| launch := inl tt;
     set_page_load_timeout := inl tt;
     get := fun _ => inl tt;
     page_source := inl page;
     quit := inl tt |}.

(** A browser whose navigation times out. *)
Definition stuck_driver : driver :=
  {| launch := inl tt;
     set_page_load_timeout := inl tt;
     get := fun _ => inr {| err_class := OtherError; err_str := lit "timeout" |};
     page_source := inl [];
     quit := inl tt |}.

(** No browser: the driver executable is missing. *)
Definition no_driver : driver :=
  {| launch := inr {| err_class := OtherError; err_str := lit "no chromedriver" |};
     set_page_load_timeout := inl tt;
     get := fun _ => inl tt;
     page_source := inl [];
     quit := inl tt |}.

End StartupScenarios.

(** ** Notions for the session *)

Module MainSpec.
Import Py Effects Parse Soup PyError Browser Main.
Local Open Scope Z_scope.

Definition user_says (p : str) : message := {| role := USER; content := p |}.
Definition assistant_says (p : str) : message :=
  {| role := ASSISTANT; content := p |}.

(** [msg["role"] == "user"] *)
Definition is_user (msg : message) : bool := Soup.str_eqb (role msg) USER.

(** Every entry of the chat history is the user's, or an assistant's answer
    that does not start with the warning marker. *)
Definition clean_history (h : list message) : Prop :=
  Forall (fun msg => is_user msg = true
                     \/ (role msg = ASSISTANT
                         /\ startswith (content msg) WARNING = false)) h.

(** A session with a page loaded and one exchange made. *)
Definition talking_session : session_state :=
  {| chat_history := [user_says (lit "q1"); assistant_says (lit "a1")];
     dom_content := lit "page";
     website_url := lit "https://example.com" |}.

End MainSpec.

(* ===================================================================== *)
(** * Theorems *)
(* ===================================================================== *)

(** ** The analyzer *)

Module ParseFacts.
Import Py Effects Parse ParseSpec.
Local Open Scope Z_scope.



(** One pass through the try statement: exactly one request; an exception
    that is no [Exception] leaves it, everything else is classified. *)
Lemma request_once_spec self prompt w :
  request_once self prompt w =
    (match escapes (model self (List.length (requests w)) prompt) with
     | Some e => inr e
     | None => inl (classify (model self (List.length (requests w)) prompt))
     end,
     after_request w prompt).
Proof.
  unfold request_once, try_except, bind, generate_content, after_request.
  destruct (model self (List.length (requests w)) prompt) as [[r|]|e]; simpl.
  - unfold access. destruct (text r) as [t|e]; simpl.
    + unfold ret. destruct (truthy t); trivial.
      destruct (prompt_feedback r) as [reason|]; trivial.
      destruct (br_truthy reason); trivial.
    + unfold raise, on_exception, ret, is_Exception.
      destruct (exc_class e); trivial.
  - reflexivity.
  - unfold on_exception, ret, is_Exception. destruct (exc_class e); trivial.
Qed.

Lemma retry_loop_step self prompt attempt rest w :
  retry_loop self prompt (attempt :: rest) w =
    match escapes (model self (List.length (requests w)) prompt) with
    | Some e => (inr e, after_request w prompt)
    | None =>
        match classify (model self (List.length (requests w)) prompt) with
        | Return v => (inl v, after_request w prompt)
        | FallThrough =>
            if attempt <? max_retries self - 1
            then bind (sleep (retry_delay self * 2 ^ attempt))
                      (fun _ => retry_loop self prompt rest)
                      (after_request w prompt)
            else (inl None, after_request w prompt)
        end
    end.
Proof.
  simpl. unfold bind at 1. rewrite request_once_spec.
  destruct (escapes _); trivial.
  destruct (classify _); trivial.
  destruct (attempt <? max_retries self - 1); trivial.
Qed.



(** Whatever its length, a sleep raises an [Exception] or is recorded. *)
Lemma sleep_cases secs w :
  (exists e, sleep secs w = (inr e, w) /\ is_Exception e = true)
  \/ sleep secs w
     = (inl tt, {| requests := requests w; sleeps := sleeps w ++ [secs] |}).
Proof.
  unfold sleep.
  destruct ((secs <? - SLEEP_MAX) || (SLEEP_MAX <? secs));
    [left; eexists; split; reflexivity|].
  destruct (secs <? 0); [left; eexists; split; reflexivity | right; reflexivity].
Qed.




Lemma truthy_nonempty (s : str) : truthy s = true <-> s <> [].
Proof. destruct s; simpl; split; congruence. Qed.

End ParseFacts.

Module AnalyzerClaims.
Import Py Effects Parse ParseFacts ParseSpec AnalyzerScenarios.
Local Open Scope Z_scope.

Lemma startswith_app (p x : str) : startswith (p ++ x) p = true.
Proof.
  induction p as [|a p IH]; simpl.
  - destruct x; reflexivity.
  - rewrite N.eqb_refl. exact IH.
Qed.

Lemma marked_warning (x : str) : marked (WARNING ++ x).
Proof. apply startswith_app. Qed.

Lemma on_exception_marked e v :
  on_exception e = Return v -> exists s, v = Some s /\ marked s.
Proof.
  unfold on_exception.
  destruct (exc_class e); intros H; inversion H; subst;
    eexists; (split; [reflexivity | apply marked_warning]).
Qed.

(** Whatever the loop body returns is a marked message or the stripped text
    of the response just received. *)
Lemma classify_return o v :
  classify o = Return v ->
  exists s, v = Some s
    /\ (marked s
        \/ exists r t, o = Returns (Some r) /\ text r = inl t
                       /\ truthy t = true /\ s = strip t).
Proof.
  destruct o as [[r|]|e]; simpl.
  - destruct (text r) as [t|e] eqn:Ht.
    + destruct (truthy t) eqn:Htt.
      * intros H. inversion H; subst. eexists. split; [reflexivity|].
        right. exists r, t. auto.
      * destruct (prompt_feedback r) as [reason|]; [|discriminate].
        destruct (br_truthy reason); [|discriminate].
        intros H. inversion H; subst. eexists. split; [reflexivity|].
        left. apply marked_warning.
    + intros H. destruct (on_exception_marked _ _ H) as (s & -> & Hs). eauto.
  - discriminate.
  - intros H. destruct (on_exception_marked _ _ H) as (s & -> & Hs). eauto.
Qed.

(** The loop sends the same prompt each time, at most once per attempt,
    and at least once when there is an attempt to make. *)
Lemma retry_loop_requests self prompt attempts :
  forall w, exists n,
    (n <= List.length attempts)%nat
    /\ (attempts <> [] -> (1 <= n)%nat)
    /\ requests (snd (retry_loop self prompt attempts w))
       = requests w ++ repeat prompt n.
Proof.
  induction attempts as [|attempt rest IH]; intros w.
  - exists 0%nat. simpl. rewrite app_nil_r. split; [lia|]. split; congruence.
  - rewrite retry_loop_step.
    destruct (escapes _);
      [exists 1%nat; simpl; split; [lia | split; [lia | reflexivity]]|].
    destruct (classify _).
    + exists 1%nat. simpl. split; [lia | split; [lia | reflexivity]].
    + destruct (attempt <? max_retries self - 1).
      * unfold bind.
        destruct (sleep_cases (retry_delay self * 2 ^ attempt)
                              (after_request w prompt))
          as [(e & -> & _) | ->].
        -- exists 1%nat. simpl. split; [lia | split; [lia | reflexivity]].
        -- match goal with |- context [retry_loop _ _ _ ?w1] =>
             destruct (IH w1) as (n & Hn & _ & Hreq) end.
           exists (S n). split; [simpl; lia|]. split; [lia|].
           rewrite Hreq. simpl. rewrite <- app_assoc. reflexivity.
      * exists 1%nat. simpl. split; [lia | split; [lia | reflexivity]].
Qed.

(** What the loop returns: nothing, a marked message, or a genuine text. *)
Lemma retry_loop_result self prompt attempts :
  forall w s w',
    retry_loop self prompt attempts w = (inl (Some s), w') ->
    marked s \/ genuine self prompt s.
Proof.
  induction attempts as [|attempt rest IH]; intros w s w'.
  - simpl. unfold ret. discriminate.
  - rewrite retry_loop_step.
    destruct (escapes _); [discriminate|].
    destruct (classify _) as [v|] eqn:Hc.
    + intros H. inversion H; subst.
      destruct (classify_return _ _ Hc) as (s' & Hs' & [Hm | (r & t & Ho & Ht & Htt & ->)]);
        inversion Hs'; subst.
      * left. exact Hm.
      * right. exists (List.length (requests w)), r, t. auto.
    + destruct (attempt <? max_retries self - 1); [|discriminate].
      unfold bind. destruct (sleep _ _) as [[[]|e] w1]; [|discriminate].
      apply IH.
Qed.


Lemma even_label (i : nat) :
  role_label (Z.of_nat i) = if Nat.even i then lit "User" else lit "Assistant".
Proof.
  unfold role_label. destruct (Nat.even i) eqn:He.
  - apply Nat.even_spec in He. destruct He as [m ->].
    replace (Z.of_nat (2 * m)) with (Z.of_nat m * 2) by lia.
    rewrite Z.mod_mul by lia. reflexivity.
  - assert (Ho : Nat.odd i = true) by (rewrite <- Nat.negb_even, He; reflexivity).
    apply Nat.odd_spec in Ho. destruct Ho as [m ->].
    replace (Z.of_nat (2 * m + 1)) with (1 + Z.of_nat m * 2) by lia.
    rewrite Z.mod_add by lia. reflexivity.
Qed.

Lemma enumerate_from_nth (A : Type) (xs : list A) :
  forall (i : Z) (k : nat) (x : A),
    nth_error xs k = Some x ->
    nth_error (enumerate_from i xs) k = Some (i + Z.of_nat k, x).
Proof.
  induction xs as [|y xs IH]; intros i k x.
  - destruct k; discriminate.
  - destruct k as [|k]; simpl.
    + intros H. inversion H. f_equal. f_equal. lia.
    + intros H. rewrite (IH _ _ _ H). f_equal. f_equal. lia.
Qed.

Lemma enumerate_from_length (A : Type) (xs : list A) :
  forall i, List.length (enumerate_from i xs) = List.length xs.
Proof. induction xs as [|y xs IH]; intros i; simpl; [|rewrite IH]; reflexivity. Qed.

Lemma process_full_content_unfold self content query history :
  _process_full_content self content query history =
    retry_loop self (sent_prompt content query history)
               (range (max_retries self)).
Proof. reflexivity. Qed.

(** With content and query both non-empty, [analyze_content] is the retry
    loop followed by the conversion of its result into a string. *)
Lemma analyze_content_nonempty self content query history w :
  content <> [] -> query <> [] ->
  analyze_content self content query history w =
    match retry_loop self (sent_prompt content query history)
                     (range (max_retries self)) w with
    | (inl (Some t), w') =>
        if truthy t then (inl t, w') else (inl ANALYSIS_FAILED, w')
    | (inl None, w') => (inl ANALYSIS_FAILED, w')
    | (inr e, w') =>
        if is_Exception e
        then (inl (WARNING ++ lit " Critical Error during analysis: " ++ exc_str e), w')
        else (inr e, w')
    end.
Proof.
  intros Hc Hq. destruct content as [|c content]; [congruence|].
  destruct query as [|q query]; [congruence|].
  unfold analyze_content, try_except, bind. cbn [truthy negb].
  rewrite process_full_content_unfold.
  destruct (retry_loop _ _ _ w) as [[[t|]|e] w']; trivial.
  destruct (truthy t); trivial.
Qed.

(** The requests of one analysis: the same prompt each time, at most
    [max_retries] times, and at least once when content and query are not
    empty and an attempt is allowed. *)
Lemma analyze_content_requests self content query history w :
  exists n,
    requests (snd (analyze_content self content query history w))
    = requests w ++ repeat (sent_prompt content query history) n
    /\ Z.of_nat n <= Z.max 0 (max_retries self)
    /\ (content <> [] -> query <> [] -> 1 <= max_retries self -> (1 <= n)%nat).
Proof.
  destruct content as [|c content].
  { exists 0%nat. simpl. rewrite app_nil_r. split; [reflexivity|].
    split; [lia | congruence]. }
  destruct query as [|q query].
  { exists 0%nat. simpl. rewrite app_nil_r. split; [reflexivity|].
    split; [lia | congruence]. }
  rewrite analyze_content_nonempty by discriminate.
  destruct (retry_loop_requests self (sent_prompt (c :: content) (q :: query) history)
              (range (max_retries self)) w) as (n & Hn & Hpos & Hreq).
  exists n. split; [|split].
  - rewrite <- Hreq.
    destruct (retry_loop _ _ _ w) as [[[t|]|e] w'];
      try destruct (truthy t); try destruct (is_Exception e); reflexivity.
  - unfold range in Hn. rewrite length_map, length_seq in Hn. lia.
  - intros _ _ Hm. apply Hpos. unfold range.
    destruct (Z.to_nat (max_retries self)) eqn:E; [lia | discriminate].
Qed.









(** C5.  Empty content: the marked "No website content" message, the world
    untouched (no request, no sleep), whatever the query and the history; so
    for the query "What is this?" and an empty history.  Non-empty content
    and empty query: the marked empty-query message, again without a
    request. *)
Theorem analyze_content_empty_inputs :
  (forall (self : ContentAnalyzer) (query : str) (history : option (list str))
          (w : world),
      analyze_content self [] query history w = (inl NO_CONTENT, w))
  /\ marked NO_CONTENT
  /\ contains NO_CONTENT (lit "No website content") = true
  /\ (forall (self : ContentAnalyzer),
        analyze_content self [] (lit "What is this?") (Some []) initial
        = (inl NO_CONTENT, initial))
  /\ (forall (self : ContentAnalyzer) (c : char) (content : str)
             (history : option (list str)) (w : world),
        analyze_content self (c :: content) [] history w = (inl EMPTY_QUERY, w))
  /\ marked EMPTY_QUERY
  /\ contains EMPTY_QUERY (lit "Query cannot be empty") = true.
Proof.
  repeat split; intros; reflexivity.
Qed.

(** C10.  Content and query both empty: the empty-content message wins,
    and it is not the empty-query message. *)
Theorem analyze_content_empty_content_first :
  (forall (self : ContentAnalyzer) (history : option (list str)) (w : world),
      analyze_content self [] [] history w = (inl NO_CONTENT, w))
  /\ contains NO_CONTENT (lit "No website content") = true
  /\ NO_CONTENT <> EMPTY_QUERY.
Proof.
  split; [reflexivity | split; [reflexivity | discriminate]].
Qed.




Lemma context_str_nonempty (h : list str) :
  h <> [] ->
  context_str (Some h)
  = CONTEXT_HEADING
      ++ join [LF] (map (fun im => role_label (fst im) ++ lit ": " ++ snd im)
                        (enumerate (slice_last h 4))).
Proof. destruct h; [congruence | reflexivity]. Qed.

(** C9.  For a non-empty history the prompt carries, between the end line
    and the query, the heading "Previous Conversation Context:" and then one
    line per entry of the window, the window being the last 4 entries (all of
    them when there are fewer); line [i] of the window is labelled "User" for
    an even [i] and "Assistant" for an odd [i], whatever the entry is.  For
    an absent or empty history nothing stands between the end line and the
    query label. *)
Theorem build_prompt_history_window :
  forall (content query : str),
    (forall (h : list str), h <> [] ->
       exists (window context_lines : list str) (older : list str),
         h = older ++ window
         /\ List.length window = Nat.min 4 (List.length h)
         /\ List.length context_lines = List.length window
         /\ (forall i msg, nth_error window i = Some msg ->
               nth_error context_lines i
               = Some ((if Nat.even i then lit "User" else lit "Assistant")
                         ++ lit ": " ++ msg))
         /\ _build_prompt content query (Some h)
            = prompt_head ++ content ++ prompt_end_marker
                ++ ([LF] ++ lit "Previous Conversation Context:" ++ [LF]
                      ++ join [LF] context_lines)
                ++ prompt_query_label ++ query ++ prompt_instructions)
    /\ _build_prompt content query None
       = prompt_head ++ content ++ prompt_end_marker
           ++ prompt_query_label ++ query ++ prompt_instructions
    /\ _build_prompt content query (Some [])
       = prompt_head ++ content ++ prompt_end_marker
           ++ prompt_query_label ++ query ++ prompt_instructions.
Proof.
  intros content query. split; [|split; reflexivity].
  intros h Hh.
  exists (slice_last h 4),
         (map (fun im => role_label (fst im) ++ lit ": " ++ snd im)
              (enumerate (slice_last h 4))),
         (firstn (List.length h - 4) h).
  unfold slice_last. repeat split.
  - symmetry. apply firstn_skipn.
  - rewrite length_skipn. lia.
  - rewrite length_map. apply enumerate_from_length.
  - intros i msg Hi. rewrite nth_error_map. unfold enumerate.
    erewrite enumerate_from_nth by exact Hi. cbn [option_map fst snd].
    rewrite Z.add_0_l, even_label. reflexivity.
  - unfold _build_prompt. rewrite (context_str_nonempty _ Hh).
    unfold CONTEXT_HEADING, slice_last.
    rewrite <- !app_assoc. reflexivity.
Qed.

Lemma build_prompt_history_window_witness :
  exists (window context_lines : list str) (older : list str),
    five_messages = older ++ window
    /\ List.length window = Nat.min 4 (List.length five_messages)
    /\ List.length context_lines = List.length window
    /\ (forall i msg, nth_error window i = Some msg ->
          nth_error context_lines i
          = Some ((if Nat.even i then lit "User" else lit "Assistant")
                    ++ lit ": " ++ msg))
    /\ _build_prompt (lit "page") (lit "capital?") (Some five_messages)
       = prompt_head ++ lit "page" ++ prompt_end_marker
           ++ ([LF] ++ lit "Previous Conversation Context:" ++ [LF]
                 ++ join [LF] context_lines)
           ++ prompt_query_label ++ lit "capital?" ++ prompt_instructions.
Proof.
  apply (proj1 (build_prompt_history_window (lit "page") (lit "capital?"))).
  discriminate.
Defined.

(** The window of five messages, as it reaches the prompt. *)
Example context_of_five_messages :
  context_str (Some five_messages)
  = [LF] ++ lit "Previous Conversation Context:" ++ [LF]
      ++ lit "User: m1" ++ [LF] ++ lit "Assistant: m2" ++ [LF]
      ++ lit "User: m3" ++ [LF] ++ lit "Assistant: m4".
Proof. reflexivity. Qed.

End AnalyzerClaims.

(** ** The document tree *)

Module SoupFacts.
Import Py Soup SoupSpec.

Lemma mem_In i ids : mem i ids = true <-> In i ids.
Proof.
  unfold mem. rewrite existsb_exists. split.
  - intros (x & Hx & He). apply Nat.eqb_eq in He. subst. exact Hx.
  - intros H. exists i. split; [exact H | apply Nat.eqb_refl].
Qed.

Lemma distinct_NoDup l : distinct l = true -> NoDup l.
Proof.
  induction l as [|x l IH]; simpl; intros H; constructor.
  - apply andb_prop in H. destruct H as [H _].
    intros Hin. apply mem_In in Hin. unfold mem in Hin.
    rewrite Hin in H. discriminate.
  - apply IH. apply andb_prop in H. tauto.
Qed.

Lemma flat_map_ext_Forall (A B : Type) (f g : A -> list B) (l : list A) :
  Forall (fun x => f x = g x) l -> flat_map f l = flat_map g l.
Proof.
  induction 1 as [|x l Hx _ IH]; simpl; [reflexivity | rewrite Hx, IH; reflexivity].
Qed.

Lemma flat_map_flat_map (A B C : Type) (f : A -> list B) (g : B -> list C) l :
  flat_map g (flat_map f l) = flat_map (fun x => flat_map g (f x)) l.
Proof.
  induction l as [|x l IH]; simpl; [reflexivity|].
  rewrite flat_map_app, IH. reflexivity.
Qed.

Lemma remove_ids_nil_node n : remove_ids_node [] n = [n].
Proof.
  induction n as [ty s | i name attrs contents IH] using node_ind; simpl; [reflexivity|].
  f_equal. f_equal.
  induction IH as [|x l Hx _ IHl]; simpl; [reflexivity|].
  rewrite Hx, IHl. reflexivity.
Qed.

Lemma remove_ids_nil s : remove_ids [] s = s.
Proof.
  unfold remove_ids. induction s as [|n s IH]; simpl; [reflexivity|].
  rewrite remove_ids_nil_node, IH. reflexivity.
Qed.

(** Decomposing one more tag removes one more identity. *)
Lemma decompose_remove_node tag ids n :
  flat_map (decompose_node tag) (remove_ids_node ids n)
  = remove_ids_node (tag :: ids) n.
Proof.
  induction n as [ty s | i name attrs contents IH] using node_ind; simpl.
  - reflexivity.
  - fold (mem i ids). destruct (mem i ids) eqn:Hm.
    + rewrite orb_true_r. reflexivity.
    + rewrite orb_false_r. simpl. destruct (i =? tag)%nat; simpl; [reflexivity|].
      f_equal. f_equal. rewrite flat_map_flat_map.
      apply flat_map_ext_Forall. exact IH.
Qed.

Lemma decompose_remove tag ids s :
  decompose tag (remove_ids ids s) = remove_ids (tag :: ids) s.
Proof.
  unfold decompose, remove_ids. rewrite flat_map_flat_map.
  apply flat_map_ext_Forall. apply Forall_forall. intros n _.
  apply decompose_remove_node.
Qed.

Lemma fold_decompose ids : forall done s,
  fold_left (fun sp tag => decompose tag sp) ids (remove_ids done s)
  = remove_ids (rev ids ++ done) s.
Proof.
  induction ids as [|tag ids IH]; intros done s; simpl; [reflexivity|].
  rewrite decompose_remove, IH, <- app_assoc. reflexivity.
Qed.

(** The loop of [clean_body_content] removes exactly the tags found. *)
Lemma decompose_all ids s :
  fold_left (fun sp tag => decompose tag sp) ids s = remove_ids (rev ids) s.
Proof.
  rewrite <- (remove_ids_nil s) at 1. rewrite fold_decompose, app_nil_r.
  reflexivity.
Qed.

(** [find_all] read off the list of tags. *)
Lemma find_all_tags_node names n :
  find_all_node names n
  = map fst (filter (fun t => name_in (snd t) names) (tags_node n)).
Proof.
  induction n as [ty s | i name attrs contents IH] using node_ind; simpl.
  - reflexivity.
  - assert (Hc : flat_map (find_all_node names) contents
                 = map fst (filter (fun t => name_in (snd t) names)
                                   (flat_map tags_node contents))).
    { induction IH as [|x l Hx _ IHl]; simpl; [reflexivity|].
      rewrite filter_app, map_app, Hx, IHl. reflexivity. }
    rewrite Hc. destruct (name_in name names); reflexivity.
Qed.

Lemma find_all_tags names s :
  find_all names s
  = map fst (filter (fun t => name_in (snd t) names) (tags s)).
Proof.
  unfold find_all, tags. induction s as [|n s IH]; simpl; [reflexivity|].
  rewrite filter_app, map_app, find_all_tags_node, IH. reflexivity.
Qed.

Lemma NoDup_fst_functional (A B : Type) (l : list (A * B)) a b1 b2 :
  NoDup (map fst l) -> In (a, b1) l -> In (a, b2) l -> b1 = b2.
Proof.
  induction l as [|[a' b'] l IH]; simpl; intros Hnd H1 H2; [contradiction|].
  inversion Hnd as [|? ? Hnotin Hnd']; subst.
  destruct H1 as [H1|H1], H2 as [H2|H2].
  - congruence.
  - inversion H1; subst. exfalso. apply Hnotin.
    change a with (fst (a, b2)). apply in_map. exact H2.
  - inversion H2; subst. exfalso. apply Hnotin.
    change a with (fst (a, b1)). apply in_map. exact H1.
  - exact (IH Hnd' H1 H2).
Qed.

(** With distinct identities, [find_all] picks the tags it was asked for. *)
Lemma find_all_picks names s :
  unique_ids s = true ->
  picks (rev (find_all names s)) names (tags s).
Proof.
  intros Hu i name Hin. apply distinct_NoDup in Hu. unfold tag_ids in Hu.
  destruct (name_in name names) eqn:Hn.
  - apply mem_In. rewrite <- in_rev, find_all_tags.
    change i with (fst (i, name)). apply in_map. apply filter_In. auto.
  - destruct (mem i (rev (find_all names s))) eqn:Hm; [|reflexivity].
    apply mem_In in Hm. rewrite <- in_rev, find_all_tags in Hm.
    apply in_map_iff in Hm. destruct Hm as ([j name'] & Hj & Hf).
    simpl in Hj. subst j. apply filter_In in Hf. destruct Hf as [Hin' Hn'].
    simpl in Hn'. rewrite (NoDup_fst_functional _ _ _ _ _ _ Hu Hin Hin') in Hn.
    congruence.
Qed.

(** Once the picked tags are gone, [get_text] reads the visible strings. *)
Lemma all_strings_remove_node ids names n :
  picks ids names (tags_node n) ->
  flat_map (all_strings_node true) (remove_ids_node ids n)
  = stripped (visible_node names n).
Proof.
  induction n as [ty s | i name attrs contents IH] using node_ind; intros Hp.
  - simpl. rewrite app_nil_r. unfold stripped.
    destruct (interesting ty); simpl; [|reflexivity].
    destruct (strip s); reflexivity.
  - simpl. rewrite (Hp i name (or_introl eq_refl)).
    destruct (name_in name names); [reflexivity|].
    simpl. rewrite app_nil_r.
    assert (Hsub : forall x, In x contents -> picks ids names (tags_node x)).
    { intros x Hx j nm Hj. apply Hp. right.
      apply in_flat_map. exists x. auto. }
    clear Hp. induction IH as [|x l Hx _ IHl]; simpl; [reflexivity|].
    unfold stripped in *. rewrite flat_map_app, map_app, filter_app.
    rewrite Hx by (apply Hsub; left; reflexivity).
    rewrite IHl by (intros y Hy; apply Hsub; right; exact Hy).
    reflexivity.
Qed.

Lemma all_strings_remove ids names s :
  picks ids names (tags s) ->
  all_strings true (remove_ids ids s) = stripped (visible_strings names s).
Proof.
  unfold all_strings, remove_ids, visible_strings, tags, stripped.
  induction s as [|n s IH]; intros Hp; simpl; [reflexivity|].
  rewrite flat_map_app, map_app, filter_app.
  rewrite (@all_strings_remove_node ids names n)
    by (intros i name Hin; apply Hp; simpl; apply in_or_app; left; exact Hin).
  rewrite IH
    by (intros i name Hin; apply Hp; simpl; apply in_or_app; right; exact Hin).
  reflexivity.
Qed.

End SoupFacts.

(** ** Strings: [strip], [splitlines], [join] *)

Module PyFacts.
Import Py PySpec.

Lemma linebreak_isspace c : is_linebreak c = true -> isspace c = true.
Proof.
  unfold is_linebreak, isspace.
  rewrite !orb_true_iff, !andb_true_iff, !N.leb_le, !N.eqb_eq. lia.
Qed.

Lemma not_space_not_break c : isspace c = false -> is_linebreak c = false.
Proof.
  intros H. destruct (is_linebreak c) eqn:Hb; [|reflexivity].
  apply linebreak_isspace in Hb. congruence.
Qed.

Lemma lstrip_head_ok s : head_ok (lstrip s) = true.
Proof.
  induction s as [|c s IH]; simpl; [reflexivity|].
  destruct (isspace c) eqn:Hc; [exact IH | simpl; rewrite Hc; reflexivity].
Qed.

Lemma lstrip_fixed s : head_ok s = true -> lstrip s = s.
Proof.
  destruct s as [|c s]; simpl; [reflexivity|].
  destruct (isspace c); [discriminate | reflexivity].
Qed.

Lemma lstrip_suffix s : exists sp, s = sp ++ lstrip s.
Proof.
  induction s as [|c s (sp & IH)]; simpl.
  - exists []. reflexivity.
  - destruct (isspace c).
    + exists (c :: sp). simpl. f_equal. exact IH.
    + exists []. reflexivity.
Qed.

Lemma lstrip_nil s : lstrip s = [] -> forallb isspace s = true.
Proof.
  induction s as [|c s IH]; simpl; [reflexivity|].
  destruct (isspace c); [exact IH | discriminate].
Qed.

Lemma strip_fixed s : head_ok s = true -> last_ok s = true -> strip s = s.
Proof.
  intros Hh Hl. unfold strip, rstrip. rewrite (lstrip_fixed _ Hh).
  rewrite (lstrip_fixed _ Hl). apply rev_involutive.
Qed.

Lemma strip_last_ok s : last_ok (strip s) = true.
Proof.
  unfold last_ok, strip, rstrip. rewrite rev_involutive. apply lstrip_head_ok.
Qed.

Lemma strip_head_ok s : head_ok (strip s) = true.
Proof.
  unfold strip, rstrip.
  pose proof (lstrip_head_ok s) as Hh.
  destruct (lstrip_suffix (rev (lstrip s))) as (sp & Hsp).
  apply (f_equal (@rev char)) in Hsp. rewrite rev_involutive, rev_app_distr in Hsp.
  destruct (rev (lstrip (rev (lstrip s)))) as [|c r]; [reflexivity|].
  rewrite Hsp in Hh. exact Hh.
Qed.

(** A string that strips to nothing is white space throughout. *)
Lemma strip_nil s : strip s = [] -> forallb isspace s = true.
Proof.
  unfold strip, rstrip. intros H.
  apply (f_equal (@rev char)) in H. rewrite rev_involutive in H. simpl in H.
  apply lstrip_nil in H.
  assert (Hl : lstrip s = []).
  { pose proof (lstrip_head_ok s) as Hh.
    destruct (lstrip s) as [|c r]; [reflexivity|].
    simpl in Hh. rewrite forallb_forall in H.
    rewrite (H c) in Hh; [discriminate | apply -> in_rev; left; reflexivity]. }
  apply lstrip_nil. exact Hl.
Qed.

Lemma nonblank_with c s : In c s -> isspace c = false -> nonblank s = true.
Proof.
  intros Hin Hc. unfold nonblank. destruct (strip s) eqn:Hs; [|reflexivity].
  apply strip_nil in Hs. rewrite forallb_forall in Hs.
  rewrite (Hs c Hin) in Hc. discriminate.
Qed.

Lemma nonblank_nonempty s : nonblank s = true -> s <> [].
Proof. intros H ->. discriminate. Qed.

Lemma last_ok_snoc s b : last_ok (s ++ [b]) = negb (isspace b).
Proof. unfold last_ok. rewrite rev_app_distr. reflexivity. Qed.

Lemma last_ok_split s :
  s <> [] -> last_ok s = true ->
  exists s' b, s = s' ++ [b] /\ isspace b = false.
Proof.
  intros Hne Hl. destruct (exists_last Hne) as (s' & b & ->).
  exists s', b. split; [reflexivity|].
  rewrite last_ok_snoc in Hl. destruct (isspace b); [discriminate | reflexivity].
Qed.

(** Induction that may step over two characters, as [splitlines] does at a
    CR LF. *)
Lemma str_ind2 (P : str -> Prop) :
  P [] ->
  (forall c s, P s -> (forall d s', s = d :: s' -> P s') -> P (c :: s)) ->
  forall s, P s.
Proof.
  intros Hnil Hcons s.
  assert (H : P s /\ (forall d s', s = d :: s' -> P s')).
  { induction s as [|c s [IH1 IH2]].
    - split; [exact Hnil | discriminate].
    - split; [apply Hcons; assumption|].
      intros d s' E. inversion E; subst. exact IH1. }
  exact (proj1 H).
Qed.

Lemma splitlines_one_line s : Forall (fun l => one_line l = true) (splitlines s).
Proof.
  induction s as [|c s IH IH2] using str_ind2; [constructor|].
  cbn [splitlines]. destruct (is_linebreak c) eqn:Hc.
  - constructor; [reflexivity|].
    destruct (c =? CR)%N; [|exact IH].
    destruct s as [|d s']; [exact IH|].
    destruct (d =? LF)%N; [apply (IH2 d s' eq_refl) | exact IH].
  - destruct (splitlines s) as [|l ls].
    + constructor; [|constructor]. simpl. rewrite Hc. reflexivity.
    + inversion IH; subst. constructor; [|assumption].
      simpl. rewrite Hc. assumption.
Qed.

(** A line followed by a newline is split off. *)
Lemma splitlines_line_LF l rest :
  one_line l = true ->
  splitlines (l ++ LF :: rest) = l :: splitlines rest.
Proof.
  induction l as [|c l IH]; intros Hl.
  - reflexivity.
  - simpl in Hl. apply andb_prop in Hl. destruct Hl as [Hc Hl].
    apply negb_true_iff in Hc.
    cbn [app splitlines]. rewrite Hc, (IH Hl). reflexivity.
Qed.

Lemma splitlines_line l :
  one_line l = true -> l <> [] -> splitlines l = [l].
Proof.
  induction l as [|c l IH]; intros Hl Hne; [congruence|].
  simpl in Hl. apply andb_prop in Hl. destruct Hl as [Hc Hl].
  apply negb_true_iff in Hc. cbn [splitlines]. rewrite Hc.
  destruct l as [|d l]; [reflexivity|].
  rewrite (IH Hl) by discriminate. reflexivity.
Qed.

(** Joining non-empty lines with newlines and splitting again gives the
    lines back. *)
Lemma splitlines_join lines :
  Forall (fun l => one_line l = true /\ l <> []) lines ->
  splitlines (join [LF] lines) = lines.
Proof.
  induction 1 as [|l lines [Hl Hne] Hrest IH]; [reflexivity|].
  cbn [join]. destruct lines as [|l' lines'].
  - apply splitlines_line; assumption.
  - cbn [app]. rewrite splitlines_line_LF by exact Hl. rewrite IH. reflexivity.
Qed.

Lemma splitlines_head c s :
  is_linebreak c = false ->
  exists l ls, splitlines (c :: s) = (c :: l) :: ls.
Proof.
  intros Hc. cbn [splitlines]. rewrite Hc.
  destruct (splitlines s) as [|l ls]; eauto.
Qed.

Lemma splitlines_last b : isspace b = false ->
  forall s : str, exists ls l, splitlines (s ++ [b]) = ls ++ [l ++ [b]].
Proof.
  intros Hb s. pose proof (not_space_not_break _ Hb) as Hnb.
  induction s as [|c s IH IH2] using str_ind2.
  - exists [], []. simpl. rewrite Hnb. reflexivity.
  - cbn [app splitlines]. destruct IH as (ls & l & IH).
    destruct (is_linebreak c) eqn:Hc.
    + assert (Hrest : exists ls' l',
                (if (c =? CR)%N
                 then match s ++ [b] with
                      | [] => splitlines (s ++ [b])
                      | d :: s'' =>
                          if (d =? LF)%N then splitlines s''
                          else splitlines (s ++ [b])
                      end
                 else splitlines (s ++ [b])) = ls' ++ [l' ++ [b]]).
      { destruct (c =? CR)%N; [|eauto].
        destruct s as [|d s']; cbn [app].
        - destruct (N.eqb_spec b LF) as [->|_]; [discriminate Hb | eauto].
        - destruct (d =? LF)%N; [apply (IH2 d s' eq_refl) | eauto]. }
      destruct Hrest as (ls' & l' & Hr).
      exists ([] :: ls'), l'. cbn [app]. f_equal. exact Hr.
    + destruct ls as [|l0 ls].
      * exists [], (c :: l). rewrite IH. reflexivity.
      * exists ((c :: l0) :: ls), l. rewrite IH. reflexivity.
Qed.

Lemma join_snoc sep xs z : exists pre, join sep (xs ++ [z]) = pre ++ z.
Proof.
  induction xs as [|x xs (pre & IH)].
  - exists []. reflexivity.
  - cbn [app join]. destruct (xs ++ [z]) as [|y ys] eqn:E.
    + destruct xs; discriminate.
    + exists (x ++ sep ++ pre). rewrite IH, <- !app_assoc. reflexivity.
Qed.

Lemma filter_all (A : Type) (f : A -> bool) l :
  Forall (fun x => f x = true) l -> filter f l = l.
Proof.
  induction 1 as [|x l Hx _ IH]; simpl; [reflexivity|].
  rewrite Hx, IH. reflexivity.
Qed.

End PyFacts.

(** ** The text cleaner *)

Module CleanerClaims.
Import Py Soup Scrape SoupFacts PyFacts PySpec SoupSpec ScrapeSpec.

Lemma str_eqb_eq a : forall b, str_eqb a b = true -> a = b.
Proof.
  induction a as [|x a IH]; intros [|y b]; simpl; try discriminate; [reflexivity|].
  intros H. apply andb_prop in H. destruct H as [Hx Ha].
  apply N.eqb_eq in Hx. rewrite (IH _ Ha), Hx. reflexivity.
Qed.

Lemma clean_body_content_unfold P body_html sp :
  body_html <> [] -> P body_html = Some sp ->
  clean_body_content P body_html
  = Some (collapse_blank_lines
            (join [LF] (all_strings true (remove_ids (rev (find_all DENYLIST sp)) sp)))).
Proof.
  intros Hne Hp. unfold clean_body_content.
  destruct body_html as [|c body_html]; [congruence|].
  cbn [truthy negb]. rewrite Hp, decompose_all. reflexivity.
Qed.

(** No picked tag is left after the removal. *)
Lemma find_all_remove_node ids names n :
  picks ids names (tags_node n) ->
  flat_map (find_all_node names) (remove_ids_node ids n) = [].
Proof.
  induction n as [ty s | i name attrs contents IH] using node_ind; intros Hp.
  - reflexivity.
  - simpl. pose proof (Hp i name (or_introl eq_refl)) as Hi.
    destruct (mem i ids); [reflexivity|].
    simpl. rewrite <- Hi, app_nil_r. simpl.
    assert (Hsub : forall x, In x contents -> picks ids names (tags_node x)).
    { intros x Hx j nm Hj. apply Hp. right.
      apply in_flat_map. exists x. auto. }
    clear Hp Hi. induction IH as [|x l Hx _ IHl]; simpl; [reflexivity|].
    rewrite flat_map_app, Hx by (apply Hsub; left; reflexivity).
    apply IHl. intros y Hy. apply Hsub. right. exact Hy.
Qed.

Lemma find_all_remove ids names s :
  picks ids names (tags s) -> find_all names (remove_ids ids s) = [].
Proof.
  unfold find_all, remove_ids, tags.
  induction s as [|n s IH]; intros Hp; simpl; [reflexivity|].
  rewrite flat_map_app.
  rewrite (@find_all_remove_node ids names n)
    by (intros i name Hin; apply Hp; simpl; apply in_or_app; left; exact Hin).
  apply IH. intros i name Hin. apply Hp. simpl. apply in_or_app. right. exact Hin.
Qed.

(** C6.  When the parse gives a tree (with distinct object identities), the
    loop over [soup(DENYLIST)] leaves no tag of a denylisted name in the tree,
    and the cleaned text is made of the visible strings only: the strings that
    lie under no denylisted tag, each stripped, joined by newlines, blank
    lines dropped.  Nothing inside a denylisted element is read.  For the
    page of the scenario the result is "Hello", newline, "World". *)
Theorem clean_body_content_drops_denylisted :
  (forall (P : str -> option soup) (body_html : str) (sp : soup),
      body_html <> [] -> P body_html = Some sp -> unique_ids sp = true ->
      find_all DENYLIST
        (fold_left (fun s tag => decompose tag s) (find_all DENYLIST sp) sp) = []
      /\ clean_body_content P body_html
         = Some (collapse_blank_lines
                   (join [LF] (stripped (visible_strings DENYLIST sp)))))
  /\ clean_body_content HtmlParser.BeautifulSoup hello_page
     = Some (lit "Hello" ++ [LF] ++ lit "World").
Proof.
  split; [|reflexivity].
  intros P body_html sp Hne Hp Hu.
  pose proof (find_all_picks DENYLIST sp Hu) as Hpicks.
  split.
  - rewrite decompose_all. apply find_all_remove. exact Hpicks.
  - rewrite (clean_body_content_unfold P _ _ Hne Hp).
    rewrite (all_strings_remove _ _ _ Hpicks). reflexivity.
Qed.

Lemma clean_body_content_drops_denylisted_witness :
  exists sp,
    HtmlParser.BeautifulSoup hello_page = Some sp
    /\ find_all DENYLIST
         (fold_left (fun s tag => decompose tag s) (find_all DENYLIST sp) sp) = []
    /\ clean_body_content HtmlParser.BeautifulSoup hello_page
       = Some (collapse_blank_lines
                 (join [LF] (stripped (visible_strings DENYLIST sp)))).
Proof.
  eexists. split; [reflexivity|].
  apply (proj1 clean_body_content_drops_denylisted HtmlParser.BeautifulSoup).
  - discriminate.
  - reflexivity.
  - reflexivity.
Defined.

Lemma first_some_find name l body :
  first_some (find_node name) l = Some body ->
  Forall (fun n => forall b, find_node name n = Some b ->
                   exists i attrs contents, b = Tag i name attrs contents) l ->
  exists i attrs contents, body = Tag i name attrs contents.
Proof.
  intros Hf Hall. induction Hall as [|n l Hn _ IH]; simpl in Hf; [discriminate|].
  destruct (find_node name n) as [b|] eqn:Hb.
  - inversion Hf; subst. exact (Hn _ eq_refl).
  - exact (IH Hf).
Qed.

(** What [find] returns is a tag of the name asked for. *)
Lemma find_node_tag name n :
  forall body, find_node name n = Some body ->
  exists i attrs contents, body = Tag i name attrs contents.
Proof.
  induction n as [ty s | i nm attrs contents IH] using node_ind; intros body; simpl.
  - discriminate.
  - destruct (str_eqb nm name) eqn:He.
    + intros H. inversion H; subst. apply str_eqb_eq in He. subst. eauto.
    + intros H. eapply first_some_find; eassumption.
Qed.

Lemma find_tag name sp body :
  find name sp = Some body ->
  exists i attrs contents, body = Tag i name attrs contents.
Proof.
  intros H. eapply first_some_find; [exact H|].
  apply Forall_forall. intros n _. apply find_node_tag.
Qed.

(** The serialization of a body tag: its start tag, its contents, its end
    tag. *)
Lemma decode_body i attrs contents :
  decode (Tag i (lit "body") attrs contents)
  = lit "<body" ++ attribute_string attrs ++ lit ">"
      ++ decode_contents (Tag i (lit "body") attrs contents) ++ lit "</body>".
Proof.
  unfold decode. destruct contents as [|n contents]; reflexivity.
Qed.

(** C7, amended.  [extract_body_content] returns the empty string for an
    empty input and for a document without a body tag; otherwise it returns
    the serialization of the first body tag itself: the start tag "<body",
    attributes, ">", then the markup inside the body, then "</body>".  It
    is a function of its input (and of the parse) alone. *)
Theorem extract_body_content_outer_markup :
  forall (P : str -> option soup) (html : str),
    (html = [] -> extract_body_content P html = Some [])
    /\ (forall sp, html <> [] -> P html = Some sp ->
          (find (lit "body") sp = None ->
             extract_body_content P html = Some [])
          /\ (forall body, find (lit "body") sp = Some body ->
                exists i attrs contents,
                  body = Tag i (lit "body") attrs contents
                  /\ extract_body_content P html
                     = Some (lit "<body" ++ attribute_string attrs ++ lit ">"
                               ++ decode_contents body ++ lit "</body>"))).
Proof.
  intros P html. split.
  - intros ->. reflexivity.
  - intros sp Hne Hp. unfold extract_body_content.
    destruct html as [|c html]; [congruence|].
    cbn [truthy negb]. rewrite Hp. split.
    + intros ->. reflexivity.
    + intros body Hb. rewrite Hb.
      destruct (find_tag _ _ _ Hb) as (i & attrs & contents & ->).
      exists i, attrs, contents. split; [reflexivity|].
      rewrite decode_body. reflexivity.
Qed.

Lemma extract_body_content_outer_markup_witness :
  exists sp body i attrs contents,
    HtmlParser.BeautifulSoup hello_page = Some sp
    /\ find (lit "body") sp = Some body
    /\ body = Tag i (lit "body") attrs contents
    /\ extract_body_content HtmlParser.BeautifulSoup hello_page
       = Some (lit "<body" ++ attribute_string attrs ++ lit ">"
                 ++ decode_contents body ++ lit "</body>").
Proof.
  destruct (proj2 (extract_body_content_outer_markup
                     HtmlParser.BeautifulSoup hello_page)
              _ ltac:(discriminate) eq_refl) as [_ H].
  destruct (H _ eq_refl) as (i & attrs & contents & Hb & He).
  eexists _, _, i, attrs, contents.
  split; [reflexivity | split; [reflexivity | split; [exact Hb | exact He]]].
Defined.

(** C7 as stated asks for the markup inside the body.  For the page of the
    scenario that is "<nav>Menu</nav><p>Hello <b>World</b></p>"; the function
    returns the body tag around it as well. *)
Lemma extract_body_content_keeps_body_tag :
  exists sp body,
    HtmlParser.BeautifulSoup hello_page = Some sp
    /\ find (lit "body") sp = Some body
    /\ decode_contents body = lit "<nav>Menu</nav><p>Hello <b>World</b></p>"
    /\ extract_body_content HtmlParser.BeautifulSoup hello_page
       = Some (lit "<body><nav>Menu</nav><p>Hello <b>World</b></p></body>")
    /\ extract_body_content HtmlParser.BeautifulSoup hello_page
       <> Some (decode_contents body).
Proof.
  eexists _, _.
  split; [reflexivity | split; [reflexivity | split; [reflexivity | split]]].
  - reflexivity.
  - vm_compute. discriminate.
Qed.

Lemma strip_trimmed s : strip s <> [] -> trimmed (strip s).
Proof.
  intros H. split; [exact H | split; [apply strip_head_ok | apply strip_last_ok]].
Qed.

Lemma all_strings_node_trimmed n :
  Forall trimmed (all_strings_node true n).
Proof.
  induction n as [ty s | i name attrs contents IH] using node_ind; simpl.
  - destruct (interesting ty); [|constructor].
    unfold len. destruct (strip s) as [|c r] eqn:Hs; simpl; constructor.
    + rewrite <- Hs. apply strip_trimmed. rewrite Hs. discriminate.
    + constructor.
  - induction IH as [|x l Hx _ IHl]; simpl; [constructor|].
    apply Forall_app. split; assumption.
Qed.

Lemma all_strings_trimmed sp : Forall trimmed (all_strings true sp).
Proof.
  unfold all_strings. induction sp as [|n sp IH]; simpl; [constructor|].
  apply Forall_app. split; [apply all_strings_node_trimmed | exact IH].
Qed.

(** Dropping blank lines twice is dropping them once. *)
Lemma collapse_blank_lines_idempotent text :
  collapse_blank_lines (collapse_blank_lines text) = collapse_blank_lines text.
Proof.
  unfold collapse_blank_lines.
  set (lines := filter nonblank (splitlines text)).
  assert (Hnb : Forall (fun l => nonblank l = true) lines).
  { apply Forall_forall. intros l Hl. apply filter_In in Hl. tauto. }
  assert (Hol : Forall (fun l => one_line l = true /\ l <> []) lines).
  { apply Forall_forall. intros l Hl. apply filter_In in Hl.
    destruct Hl as [Hin Hn]. split; [|apply nonblank_nonempty; exact Hn].
    pose proof (splitlines_one_line text) as Hall.
    rewrite Forall_forall in Hall. exact (Hall l Hin). }
  rewrite (splitlines_join _ Hol), (filter_all _ _ _ Hnb). reflexivity.
Qed.

(** Text that starts and ends without white space keeps that form when its
    blank lines go. *)
Lemma collapse_blank_lines_head c text :
  isspace c = false ->
  exists rest, collapse_blank_lines (c :: text) = c :: rest.
Proof.
  intros Hc. unfold collapse_blank_lines.
  destruct (splitlines_head c text (not_space_not_break _ Hc)) as (l & ls & ->).
  cbn [filter]. rewrite (nonblank_with c (c :: l) (or_introl eq_refl) Hc).
  cbn [join]. destruct (filter nonblank ls); cbn [app]; eauto.
Qed.

Lemma collapse_blank_lines_last b text :
  isspace b = false ->
  exists front, collapse_blank_lines (text ++ [b]) = front ++ [b].
Proof.
  intros Hb. unfold collapse_blank_lines.
  destruct (splitlines_last b Hb text) as (ls & l & ->).
  rewrite filter_app. cbn [filter].
  rewrite (nonblank_with b (l ++ [b])); [|apply in_or_app; right; left; reflexivity | exact Hb].
  destruct (join_snoc [LF] (filter nonblank ls) (l ++ [b])) as (pre & E).
  exists (pre ++ l). etransitivity; [exact E | apply app_assoc].
Qed.

Lemma join_trimmed_head t ts :
  trimmed t -> exists c rest, isspace c = false /\ join [LF] (t :: ts) = c :: rest.
Proof.
  intros (Hne & Hh & _). destruct t as [|c t]; [congruence|].
  simpl in Hh. apply negb_true_iff in Hh.
  exists c. cbn [join]. destruct ts; cbn [app]; eauto.
Qed.

Lemma join_trimmed_last ts t :
  trimmed t -> exists front b, isspace b = false /\ join [LF] (ts ++ [t]) = front ++ [b].
Proof.
  intros (Hne & _ & Hl).
  destruct (last_ok_split _ Hne Hl) as (t' & b & -> & Hb).
  destruct (join_snoc [LF] ts (t' ++ [b])) as (pre & E).
  exists (pre ++ t'), b. split; [exact Hb|].
  etransitivity; [exact E | apply app_assoc].
Qed.

(** The cleaned text has no white space at either end. *)
Lemma cleaned_text_stripped strs :
  Forall trimmed strs ->
  strip (collapse_blank_lines (join [LF] strs))
  = collapse_blank_lines (join [LF] strs).
Proof.
  intros Hall. destruct strs as [|t ts]; [reflexivity|].
  apply strip_fixed.
  - inversion Hall as [|? ? Ht _]; subst.
    destruct (join_trimmed_head _ ts Ht) as (c & rest & Hc & ->).
    destruct (collapse_blank_lines_head _ rest Hc) as (rest' & ->).
    simpl. rewrite Hc. reflexivity.
  - assert (Hne : t :: ts <> []) by discriminate.
    destruct (exists_last Hne) as (front & z & E). rewrite E in *.
    apply Forall_app in Hall. destruct Hall as [_ Hz].
    inversion Hz as [|? ? Ht _]; subst.
    destruct (join_trimmed_last front _ Ht) as (pre & b & Hb & ->).
    destruct (collapse_blank_lines_last _ pre Hb) as (pre' & ->).
    rewrite last_ok_snoc, Hb. reflexivity.
Qed.

(** What [clean_body_content] returns has no white space at either end and
    no blank line. *)
Lemma clean_body_content_shape P x y :
  clean_body_content P x = Some y ->
  strip y = y /\ collapse_blank_lines y = y.
Proof.
  unfold clean_body_content. destruct x as [|c x]; cbn [truthy negb].
  - intros H. inversion H. split; reflexivity.
  - destruct (P (c :: x)) as [sp|]; [|discriminate].
    intros H. inversion H as [Hy]. clear H.
    change (join [LF] (filter nonblank (splitlines ?t)))
      with (collapse_blank_lines t).
    unfold get_text. split.
    + apply cleaned_text_stripped. apply all_strings_trimmed.
    + apply collapse_blank_lines_idempotent.
Qed.

(** Cleaning a text that parses as itself gives it back. *)
Lemma clean_body_content_plain P y :
  strip y = y -> collapse_blank_lines y = y ->
  (y <> [] -> P y = Some [Text NavigableString y]) ->
  clean_body_content P y = Some y.
Proof.
  intros Hs Hc Hp. destruct y as [|c y]; [reflexivity|].
  unfold clean_body_content. cbn [truthy negb].
  rewrite Hp by discriminate.
  cbn [find_all flat_map find_all_node app fold_left].
  unfold get_text, all_strings. cbn [flat_map all_strings_node interesting].
  rewrite Hs. cbn [len List.length]. rewrite app_nil_r.
  replace (Z.of_nat (S (List.length y)) =? 0)%Z with false
    by (symmetry; apply Z.eqb_neq; lia).
  cbn [join]. f_equal. exact Hc.
Qed.

Import HtmlParser.

Lemma ascii_space_isspace c :
  has_char c ASCII_SPACES = true -> isspace c = true.
Proof.
  unfold has_char, ASCII_SPACES, isspace. cbn [existsb].
  rewrite !orb_true_iff, !andb_true_iff, !N.leb_le, !N.eqb_eq. lia.
Qed.

Lemma collapse_trimmed y : y <> [] -> head_ok y = true -> collapse y = y.
Proof.
  intros Hne Hh. destruct y as [|c y]; [congruence|].
  unfold collapse. cbn [forallb].
  destruct (has_char c ASCII_SPACES) eqn:Hc; [|reflexivity].
  apply ascii_space_isspace in Hc. simpl in Hh. rewrite Hc in Hh. discriminate.
Qed.

(** Character data without [<] and [&] is collected as it stands. *)
Lemma feed_data y :
  markup_free y = true ->
  forall rt stack data nid,
    feed y (Data, {| root := rt; tagStack := stack; current_data := data;
                     next_id := nid |})
    = Some (Data, {| root := rt; tagStack := stack;
                     current_data := data ++ y; next_id := nid |}).
Proof.
  induction y as [|c y IH]; intros Hy rt stack data nid.
  - rewrite app_nil_r. reflexivity.
  - simpl in Hy. apply andb_prop in Hy. destruct Hy as [Hc Hy].
    apply andb_prop in Hc. destruct Hc as [Hlt Hamp].
    apply negb_true_iff in Hlt, Hamp.
    cbn [feed step]. rewrite Hlt, Hamp. unfold handle_data.
    cbn [root tagStack current_data next_id].
    rewrite (IH Hy), <- app_assoc. reflexivity.
Qed.

(** Such text, when it has no white space in front, parses as one string. *)
Lemma BeautifulSoup_plain_text y :
  y <> [] -> head_ok y = true -> markup_free y = true ->
  BeautifulSoup y = Some [Text NavigableString y].
Proof.
  intros Hne Hh Hm. unfold BeautifulSoup, start.
  rewrite (feed_data y Hm). cbn [app].
  unfold finish, endData. cbn [current_data tagStack root].
  destruct y as [|c y]; [congruence|].
  cbn [append pop_all rev app].
  rewrite (collapse_trimmed (c :: y) Hne Hh). reflexivity.
Qed.

(** C8, amended.  When the cleaned text of [x] parses again as one string
    holding that text, cleaning it again changes nothing; under the
    html.parser fragment this is so whenever the cleaned text contains
    neither [<] nor [&]. *)
Theorem clean_body_content_idempotent_on_plain_text :
  (forall (P : str -> option soup) (x y : str),
      clean_body_content P x = Some y ->
      (y <> [] -> P y = Some [Text NavigableString y]) ->
      clean_body_content P y = Some y)
  /\ (forall (x y : str),
        clean_body_content BeautifulSoup x = Some y ->
        markup_free y = true ->
        clean_body_content BeautifulSoup y = Some y).
Proof.
  assert (General : forall (P : str -> option soup) (x y : str),
      clean_body_content P x = Some y ->
      (y <> [] -> P y = Some [Text NavigableString y]) ->
      clean_body_content P y = Some y).
  { intros P x y Hx Hp.
    destruct (clean_body_content_shape P x y Hx) as [Hs Hc].
    apply clean_body_content_plain; assumption. }
  split; [exact General|].
  intros x y Hx Hm. apply (General BeautifulSoup x y Hx).
  intros Hne. apply BeautifulSoup_plain_text; [exact Hne | | exact Hm].
  destruct (clean_body_content_shape _ x y Hx) as [Hs _].
  rewrite <- Hs. apply strip_head_ok.
Qed.

Lemma clean_body_content_idempotent_on_plain_text_witness :
  clean_body_content BeautifulSoup (lit "Hello" ++ [LF] ++ lit "World")
  = Some (lit "Hello" ++ [LF] ++ lit "World").
Proof.
  apply (proj2 clean_body_content_idempotent_on_plain_text hello_page).
  - reflexivity.
  - reflexivity.
Defined.

(** C8 as stated.  The page [&lt;b&gt;hi&lt;/b&gt;] has no tag at all, so no
    denylisted one; its cleaned text is "<b>hi</b>", and cleaning that text
    gives "hi". *)
Lemma clean_body_content_not_idempotent :
  exists sp y z,
    BeautifulSoup escaped_page = Some sp
    /\ find_all DENYLIST sp = []
    /\ clean_body_content BeautifulSoup escaped_page = Some y
    /\ y = lit "<b>hi</b>"
    /\ clean_body_content BeautifulSoup y = Some z
    /\ z = lit "hi"
    /\ z <> y.
Proof.
  eexists _, _, _.
  split; [reflexivity|]. split; [reflexivity|]. split; [reflexivity|].
  split; [reflexivity|]. split; [reflexivity|]. split; [reflexivity|].
  discriminate.
Qed.

End CleanerClaims.

(** ** The definitions at work on small inputs *)

Module Examples.
Import Py Effects Parse Soup HtmlParser Scrape ParseSpec AnalyzerScenarios ScrapeSpec.
Local Open Scope Z_scope.

Example strip_both_ends :
  strip ([9; 32]%N ++ lit "a b" ++ [160; 10]%N) = lit "a b".
Proof. reflexivity. Qed.

Example splitlines_boundaries :
  splitlines (lit "a" ++ [CR; LF; LF; CR] ++ lit "b" ++ [CR])
  = [lit "a"; []; []; lit "b"].
Proof. reflexivity. Qed.

Example splitlines_empty : splitlines [] = [].
Proof. reflexivity. Qed.

Example slice_to_negative : slice_to (lit "abcdef") (-2) = lit "abcd".
Proof. reflexivity. Qed.

Example parse_hello_page :
  BeautifulSoup hello_page
  = Some [Tag 0 (lit "body") []
            [Tag 1 (lit "nav") [] [Text NavigableString (lit "Menu")];
             Tag 2 (lit "p") []
               [Text NavigableString (lit "Hello ");
                Tag 3 (lit "b") [] [Text NavigableString (lit "World")]]]].
Proof. reflexivity. Qed.

(** An end tag closes the open tags above the one it names; an end tag that
    names no open tag is dropped; what is still open at the end is closed. *)
Example parse_unbalanced :
  BeautifulSoup (lit "<p>a<p>b</a></p> c <i>x")
  = Some [Tag 0 (lit "p") []
            [Text NavigableString (lit "a");
             Tag 1 (lit "p") [] [Text NavigableString (lit "b")];
             Text NavigableString (lit " c ");
             Tag 2 (lit "i") [] [Text NavigableString (lit "x")]]].
Proof. reflexivity. Qed.

Example parse_outside_fragment :
  BeautifulSoup (lit "<a href=x>y</a>") = None.
Proof. reflexivity. Qed.

(** A denylisted tag inside another: both are found, the inner one is gone
    with the outer one, and decomposing it afterwards changes nothing. *)
Example nested_denylisted :
  exists sp,
    BeautifulSoup (lit "<div><nav>a<form>b</form></nav>c</div>") = Some sp
    /\ find_all DENYLIST sp = [1%nat; 2%nat]
    /\ decompose 1 sp = decompose 2 (decompose 1 sp)
    /\ clean_body_content BeautifulSoup (lit "<div><nav>a<form>b</form></nav>c</div>")
       = Some (lit "c").
Proof. eexists. repeat split. Qed.

Example decode_escapes :
  decode (Tag 0 (lit "p") [(lit "title", Some (lit "a<b"))]
              [Text NavigableString (lit "x & y"); Tag 1 (lit "br") [] []])
  = lit "<p title=" ++ [DQUOTE] ++ lit "a&lt;b" ++ [DQUOTE]
      ++ lit ">x &amp; y<br/></p>".
Proof. reflexivity. Qed.

(** Three timeouts with the defaults: three requests, two sleeps, and the
    analysis-failed message. *)
Example three_timeouts :
  analyze_content (default_analyzer (fun _ _ => Raises timeout_exc))
                  (lit "page") (lit "capital?") None initial
  = (inl ANALYSIS_FAILED,
     {| requests := repeat (sent_prompt (lit "page") (lit "capital?") None) 3;
        sleeps := [5; 10] |}).
Proof. reflexivity. Qed.

(** A negative delay: [time.sleep] raises, the outer handler reports it. *)
Example negative_delay :
  fst (analyze_content
         {| max_retries := 3; retry_delay := -1;
            model := fun _ _ => Raises timeout_exc |}
         (lit "page") (lit "capital?") None initial)
  = inl (WARNING ++ lit " Critical Error during analysis: sleep length must be non-negative").
Proof. reflexivity. Qed.

(** A delay beyond the clock: the sleep after the first timeout raises
    OverflowError, and the analysis ends there, after one request. *)
Example overlong_delay :
  analyze_content
    {| max_retries := 3; retry_delay := 10 ^ 30;
       model := fun _ _ => Raises timeout_exc |}
    (lit "page") (lit "capital?") None initial
  = (inl (WARNING ++ lit " Critical Error during analysis: timestamp too large to convert to C _PyTime_t"),
     {| requests := [sent_prompt (lit "page") (lit "capital?") None];
        sleeps := [] |}).
Proof. reflexivity. Qed.

(** The longest delay the clock takes, and the first it does not. *)
Example sleep_longest :
  sleep SLEEP_MAX initial = (inl tt, {| requests := []; sleeps := [SLEEP_MAX] |})
  /\ fst (sleep (SLEEP_MAX + 1) initial)
     = inr {| exc_class := OverflowError;
              exc_str := lit "timestamp too large to convert to C _PyTime_t" |}
  /\ fst (sleep (- SLEEP_MAX) initial)
     = inr {| exc_class := ValueError;
              exc_str := lit "sleep length must be non-negative" |}
  /\ fst (sleep (- SLEEP_MAX - 1) initial)
     = inr {| exc_class := OverflowError;
              exc_str := lit "timestamp too large to convert to C _PyTime_t" |}.
Proof. repeat split. Qed.

(** A template and a ruby annotation are outside the parsed fragment. *)
Example parse_template_outside_fragment :
  BeautifulSoup (lit "<template>x</template>") = None
  /\ BeautifulSoup (lit "<ruby>a<rt>b</rt></ruby>") = None.
Proof. split; reflexivity. Qed.

End Examples.

(** ** The analyzer: more of the retry protocol *)

Module RetryFacts.
Import Py Effects Parse ParseSpec RetrySpec ParseFacts AnalyzerClaims.
Local Open Scope Z_scope.






End RetryFacts.

Module AnalyzerExtras.
Import Py Effects Parse ParseSpec RetrySpec AnalyzerScenarios.
Import ParseFacts AnalyzerClaims RetryFacts PySpec PyFacts.
Local Open Scope Z_scope.











(** X5.  With a retry ceiling of zero or less the analyzer sends nothing and
    reports the analysis as failed. *)
Theorem analyze_content_no_attempt_allowed :
  forall (self : ContentAnalyzer) (content query : str)
         (history : option (list str)) (w : world),
    content <> [] -> query <> [] ->
    max_retries self <= 0 ->
    analyze_content self content query history w = (inl ANALYSIS_FAILED, w).
Proof.
  intros self content query history w Hc Hq Hm.
  rewrite (analyze_content_nonempty self _ _ history w Hc Hq).
  unfold range. replace (Z.to_nat (max_retries self)) with 0%nat by lia.
  reflexivity.
Qed.

Lemma analyze_content_no_attempt_allowed_witness :
  analyze_content {| max_retries := 0; retry_delay := 5; model := dead_model |}
                  (lit "page") (lit "capital?") None initial
  = (inl ANALYSIS_FAILED, initial).
Proof.
  apply analyze_content_no_attempt_allowed.
  - discriminate.
  - discriminate.
  - simpl. lia.
Defined.



(** X7.  Only the last four messages of the history reach the prompt:
    whatever precedes them changes nothing. *)
Theorem build_prompt_forgets_older_history :
  forall (content query : str) (older recent : list str),
    List.length recent = 4%nat ->
    _build_prompt content query (Some (older ++ recent))
    = _build_prompt content query (Some recent).
Proof.
  intros content query older recent Hlen.
  unfold _build_prompt. f_equal. f_equal. f_equal. f_equal.
  assert (Hne : recent <> []) by (intros ->; discriminate).
  assert (Hne' : older ++ recent <> []).
  { intros H. apply app_eq_nil in H. tauto. }
  rewrite (context_str_nonempty _ Hne), (context_str_nonempty _ Hne').
  f_equal. f_equal. f_equal. unfold slice_last.
  rewrite length_app, Hlen.
  replace (List.length older + 4 - 4)%nat with (List.length older + 0)%nat by lia.
  rewrite skipn_app, Nat.add_0_r, skipn_all.
  replace (List.length older - List.length older)%nat with 0%nat by lia.
  reflexivity.
Qed.

Lemma build_prompt_forgets_older_history_witness :
  _build_prompt (lit "page") (lit "capital?")
                (Some ([lit "m0"] ++ [lit "m1"; lit "m2"; lit "m3"; lit "m4"]))
  = _build_prompt (lit "page") (lit "capital?")
                  (Some [lit "m1"; lit "m2"; lit "m3"; lit "m4"]).
Proof.
  apply build_prompt_forgets_older_history. reflexivity.
Defined.

Lemma strip_idempotent t : strip (strip t) = strip t.
Proof. apply strip_fixed; [apply strip_head_ok | apply strip_last_ok]. Qed.

(** X8.  A result that does not start with the warning marker is an answer
    of the endpoint as the caller gets it: not empty, and with no white
    space left at either end. *)
Theorem analyze_content_answer_is_stripped :
  forall (self : ContentAnalyzer) (content query : str)
         (history : option (list str)) (w w' : world) (s : str),
    analyze_content self content query history w = (inl s, w') ->
    startswith s WARNING = false ->
    s <> [] /\ strip s = s.
Proof.
  intros self content query history w w' s Hrun Hnot.
  assert (Hw : forall x, startswith (WARNING ++ x) WARNING = true)
    by (intros x; apply startswith_app).
  destruct content as [|c content].
  { inversion Hrun; subst.
    first [rewrite (Hw _) in Hnot | vm_compute in Hnot]; discriminate. }
  destruct query as [|q query].
  { inversion Hrun; subst.
    first [rewrite (Hw _) in Hnot | vm_compute in Hnot]; discriminate. }
  rewrite analyze_content_nonempty in Hrun by discriminate.
  destruct (retry_loop _ _ _ w) as [[[t|]|e] w1] eqn:Hloop.
  - destruct (truthy t) eqn:Ht.
    + inversion Hrun; subst.
      destruct (retry_loop_result _ _ _ _ _ _ Hloop) as [Hm | (k & r & t & _ & _ & _ & ->)].
      * unfold marked in Hm. congruence.
      * split; [apply truthy_nonempty; exact Ht | apply strip_idempotent].
    + inversion Hrun; subst.
    first [rewrite (Hw _) in Hnot | vm_compute in Hnot]; discriminate.
  - inversion Hrun; subst.
    first [rewrite (Hw _) in Hnot | vm_compute in Hnot]; discriminate.
  - destruct (is_Exception e); [|discriminate].
    inversion Hrun; subst.
    first [rewrite (Hw _) in Hnot | vm_compute in Hnot]; discriminate.
Qed.

Lemma analyze_content_answer_is_stripped_witness :
  lit "Paris." <> [] /\ strip (lit "Paris.") = lit "Paris.".
Proof.
  apply (analyze_content_answer_is_stripped
           (default_analyzer (flaky_model (lit "  Paris.  ")))
           (lit "page") (lit "capital?") None initial
           {| requests := repeat (sent_prompt (lit "page") (lit "capital?") None) 3;
              sleeps := [5; 10] |}).
  - reflexivity.
  - reflexivity.
Defined.

(** X9.  What follows the first 700,000 characters of the content has no
    effect: two contents that agree on that prefix and go on beyond it give
    the same result, the same requests and the same sleeps. *)
Theorem analyze_content_ignores_excess :
  forall (self : ContentAnalyzer) (kept excess1 excess2 query : str)
         (history : option (list str)) (w : world),
    len kept = MAX_CONTENT_LENGTH ->
    excess1 <> [] -> excess2 <> [] ->
    analyze_content self (kept ++ excess1) query history w
    = analyze_content self (kept ++ excess2) query history w.
Proof.
  intros self kept excess1 excess2 query history w Hk H1 H2.
  assert (Hemb : forall excess, excess <> [] ->
            embedded_content (kept ++ excess) = kept).
  { intros excess Hx. unfold embedded_content, len in *.
    rewrite length_app.
    destruct excess as [|x excess]; [congruence|]. cbn [List.length].
    destruct (Z.gtb_spec (Z.of_nat (List.length kept + S (List.length excess)))
                MAX_CONTENT_LENGTH) as [_|Hle]; [|lia].
    unfold slice_to.
    destruct (Z.leb_spec 0 MAX_CONTENT_LENGTH) as [_|Hneg]; [|lia].
    rewrite <- Hk, Nat2Z.id, firstn_app, firstn_all, Nat.sub_diag.
    cbn [firstn]. apply app_nil_r. }
  assert (Hne : forall excess, excess <> [] -> kept ++ excess <> []).
  { intros excess Hx H. apply app_eq_nil in H. tauto. }
  destruct query as [|q query].
  - destruct (kept ++ excess1) eqn:E1; [exfalso; exact (Hne _ H1 E1)|].
    destruct (kept ++ excess2) eqn:E2; [exfalso; exact (Hne _ H2 E2)|].
    reflexivity.
  - rewrite !analyze_content_nonempty by (try discriminate; apply Hne; assumption).
    unfold sent_prompt. rewrite (Hemb _ H1), (Hemb _ H2). reflexivity.
Qed.

Lemma analyze_content_ignores_excess_witness :
  analyze_content (default_analyzer dead_model) (full_page ++ lit "x")
                  (lit "capital?") None initial
  = analyze_content (default_analyzer dead_model) (full_page ++ lit "yz")
                    (lit "capital?") None initial.
Proof.
  apply analyze_content_ignores_excess.
  - vm_compute. reflexivity.
  - discriminate.
  - discriminate.
Defined.

End AnalyzerExtras.

(** ** The construction of the analyzer *)

Module StartupExtras.
Import Py Effects Parse PyError Startup StartupScenarios AnalyzerScenarios RetrySpec.
Local Open Scope Z_scope.

Lemma truthy_cons_iff (s : str) : truthy s = true <-> s <> [].
Proof. destruct s; simpl; split; congruence. Qed.

(** X10.  [ContentAnalyzer(max_retries, retry_delay)] yields an analyzer
    exactly when the host name resolves, the API key is set and not empty,
    the client accepts the key and the model handle can be made; the
    analyzer then carries the given ceiling and delay and that handle. *)
Theorem analyzer_constructed_iff :
  forall (env : environment) (mr rd : Z) (a : ContentAnalyzer),
    fst (__init__ env mr rd) = inl a
    <-> exists key m,
          getaddrinfo env = inl tt
          /\ GOOGLE_API_KEY env = Some key /\ key <> []
          /\ configure env key = inl tt
          /\ GenerativeModel env = inl m
          /\ a = {| max_retries := mr; retry_delay := rd; model := m |}.
Proof.
  intros env mr rd a. unfold __init__, _initialize_model. split.
  - destruct (getaddrinfo env) as [[]|e] eqn:Hdns.
    + destruct (GOOGLE_API_KEY env) as [key|] eqn:Hkey; [|discriminate].
      destruct (truthy key) eqn:Ht; cbn [negb]; [|discriminate].
      destruct (configure env key) as [[]|e] eqn:Hconf; [|discriminate].
      destruct (GenerativeModel env) as [m|e] eqn:Hm;
        [|destruct (PyError.is_Exception e); discriminate].
      cbn [fst]. intros H. inversion H; subst.
      exists key, m. apply truthy_cons_iff in Ht. auto 10.
    + destruct (err_class e); discriminate.
  - intros (key & m & Hdns & Hkey & Hne & Hconf & Hm & ->).
    apply truthy_cons_iff in Hne.
    rewrite Hdns, Hkey, Hne. cbn [negb]. rewrite Hconf, Hm. reflexivity.
Qed.

(** X11.  The API key reaches the client library only after the host name
    has resolved, and never when it is unset or empty; and a model handle is
    asked for only after the client has taken the key. *)
Theorem api_key_guarded :
  forall (env : environment) (mr rd : Z),
    (forall key, In (Configure key) (snd (__init__ env mr rd)) ->
        getaddrinfo env = inl tt
        /\ GOOGLE_API_KEY env = Some key /\ key <> [])
    /\ (forall name, In (NewModel name) (snd (__init__ env mr rd)) ->
          exists key, GOOGLE_API_KEY env = Some key
                      /\ configure env key = inl tt).
Proof.
  intros env mr rd. unfold __init__, _initialize_model.
  destruct (getaddrinfo env) as [[]|e] eqn:Hdns.
  - destruct (GOOGLE_API_KEY env) as [key|] eqn:Hkey.
    + destruct (truthy key) eqn:Ht; cbn [negb].
      * apply truthy_cons_iff in Ht.
        destruct (configure env key) as [[]|e] eqn:Hconf.
        -- destruct (GenerativeModel env) as [m|e];
             [|destruct (PyError.is_Exception e)]; cbn [snd]; split;
             first [ intros k [H|[H|[H|[]]]]; inversion H; subst; solve [auto]
                   | intros n _; eauto ].
        -- cbn [snd]. split.
           ++ intros k [H|[H|[]]]; inversion H; subst; auto.
           ++ intros n [H|[H|[]]]; inversion H.
      * cbn [snd]. split; intros k [H|[]]; inversion H.
    + cbn [snd]. split; intros k [H|[]]; inversion H.
  - destruct (err_class e); cbn [snd]; split; intros k [H|[]]; inversion H.
Qed.

Lemma analyzer_constructed_iff_witness :
  fst (__init__ (good_env dead_model) 3 5)
  = inl {| max_retries := 3; retry_delay := 5; model := dead_model |}.
Proof.
  apply (proj2 (analyzer_constructed_iff (good_env dead_model) 3 5 _)).
  exists (lit "AIza-key"), dead_model.
  repeat split; try reflexivity. discriminate.
Defined.

Lemma api_key_guarded_witness :
  getaddrinfo (good_env dead_model) = inl tt
  /\ GOOGLE_API_KEY (good_env dead_model) = Some (lit "AIza-key")
  /\ lit "AIza-key" <> [].
Proof.
  apply (proj1 (api_key_guarded (good_env dead_model) 3 5)).
  simpl. auto.
Defined.

End StartupExtras.

(** ** The browser *)

Module BrowserExtras.
Import Py PyError Browser StartupScenarios.
Local Open Scope Z_scope.

(** X12.  The browser is shut down exactly when it was started and given its
    page-load timeout: then [quit] is the last thing asked of it, once, also
    when the navigation or the reading of the page failed; and when the
    start or the timeout setting failed, [quit] is never asked. *)
Theorem scrape_website_quits_driver :
  forall (d : driver) (url : str),
    (launch d = inl tt -> set_page_load_timeout d = inl tt ->
       exists before,
         snd (scrape_website d url) = before ++ [Quit] /\ ~ In Quit before)
    /\ ((forall u, launch d <> inl u) \/ (forall u, set_page_load_timeout d <> inl u) ->
        ~ In Quit (snd (scrape_website d url))).
Proof.
  intros d url. unfold scrape_website, fetch. split.
  - intros Hl Hs. rewrite Hl, Hs.
    destruct (get d url) as [[]|e1]; [destruct (page_source d) as [s|e2]|];
      destruct (quit d) as [[]|e3]; cbn [snd app];
      match goal with
      | |- exists b, ?l = b ++ [Quit] /\ _ => exists (removelast l)
      end;
      (split; [reflexivity | cbn; intuition discriminate]).
  - intros [H|H].
    + destruct (launch d) as [u|e]; [exfalso; exact (H u eq_refl)|].
      cbn. intuition discriminate.
    + destruct (launch d) as [u|e]; [|cbn; intuition discriminate].
      destruct (set_page_load_timeout d) as [u'|e]; [exfalso; exact (H u' eq_refl)|].
      cbn. intuition discriminate.
Qed.

Lemma scrape_website_quits_driver_witness :
  exists before,
    snd (scrape_website stuck_driver (lit "https://example.com"))
    = before ++ [Quit] /\ ~ In Quit before.
Proof.
  apply (proj1 (scrape_website_quits_driver stuck_driver (lit "https://example.com")));
    reflexivity.
Defined.

(** X13.  [scrape_website] returns a page exactly when every operation of
    the driver succeeded, and the page is the source the driver showed after
    the navigation and a sleep of five seconds. *)
Theorem scrape_website_returns_page_iff :
  forall (d : driver) (url : str) (page : str),
    fst (scrape_website d url) = inl page
    <-> launch d = inl tt /\ set_page_load_timeout d = inl tt
        /\ get d url = inl tt /\ page_source d = inl page /\ quit d = inl tt
        /\ snd (scrape_website d url)
           = [Launch; SetPageLoadTimeout 30; Get url; Sleep 5; PageSource; Quit].
Proof.
  intros d url page. unfold scrape_website, fetch. split.
  - destruct (launch d) as [[]|e]; [|discriminate].
    destruct (set_page_load_timeout d) as [[]|e]; [|discriminate].
    destruct (get d url) as [[]|e].
    + destruct (page_source d) as [s|e]; destruct (quit d) as [[]|e'];
        cbn [fst snd]; try discriminate.
      intros H. inversion H; subst. auto 10.
    + destruct (quit d) as [[]|e']; discriminate.
  - intros (Hl & Hs & Hg & Hp & Hq & _). rewrite Hl, Hs, Hg, Hp, Hq. reflexivity.
Qed.

Lemma scrape_website_returns_page_iff_witness :
  fst (scrape_website (good_driver (lit "<p>hi</p>")) (lit "https://example.com"))
  = inl (lit "<p>hi</p>").
Proof.
  apply (proj2 (scrape_website_returns_page_iff
                  (good_driver (lit "<p>hi</p>")) (lit "https://example.com") _)).
  repeat split; reflexivity.
Defined.



End BrowserExtras.

(** ** The session *)

Module MainExtras.
Import Py Effects Parse Soup Scrape PyError Browser Main.
Import ParseSpec RetrySpec StartupScenarios AnalyzerScenarios ScrapeSpec MainSpec.
Import ParseFacts AnalyzerClaims.
Local Open Scope Z_scope.

Lemma slice_to_drop_last (A : Type) (l : list A) (x : A) :
  slice_to (l ++ [x]) (-1) = l.
Proof.
  unfold slice_to. change (0 <=? -1) with false.
  change (Z.to_nat (- -1)) with 1%nat. cbv iota.
  rewrite length_app. cbn [List.length].
  replace (List.length l + 1 - 1)%nat with (List.length l) by lia.
  rewrite firstn_app, firstn_all, Nat.sub_diag. cbn [firstn]. apply app_nil_r.
Qed.

Lemma partition_length (A : Type) (f : A -> bool) (l : list A) :
  (List.length (filter (fun x => negb (f x)) l) + List.length (filter f l)
   = List.length l)%nat.
Proof.
  induction l as [|x l IH]; simpl; [reflexivity|].
  destruct (f x); simpl; lia.
Qed.

Lemma history_for_model_without_prompt_shape h p :
  history_for_model (h ++ [user_says p])
  = map content (filter (fun msg => negb (is_user msg)) h)
    ++ map content (filter is_user h)
  /\ List.length (history_for_model (h ++ [user_says p])) = List.length h.
Proof.
  assert (E : history_for_model (h ++ [user_says p])
              = map content (filter (fun msg => negb (is_user msg)) h)
                ++ map content (filter is_user h)).
  { unfold history_for_model. rewrite !filter_app. cbn [filter user_says role].
    change (Soup.str_eqb USER USER) with true. cbn [negb].
    rewrite app_nil_r, map_app. cbn [map content].
    fold is_user. rewrite slice_to_drop_last. reflexivity. }
  split; [exact E|].
  rewrite E, length_app, !length_map. apply partition_length.
Qed.

(** X15.  When the prompt has just been appended to the chat history, the
    history handed to the analyzer leaves the prompt out and holds every
    earlier message once: first those that are not the user's, then the
    user's, each group in its order. *)
Theorem history_for_model_without_prompt :
  forall (h : list message) (p : str),
    history_for_model (h ++ [user_says p])
    = map content (filter (fun msg => negb (is_user msg)) h)
      ++ map content (filter is_user h)
    /\ List.length (history_for_model (h ++ [user_says p])) = List.length h.
Proof.
  intros h p. apply history_for_model_without_prompt_shape.
Qed.

Lemma history_for_model_without_prompt_example :
  history_for_model (chat_history talking_session ++ [user_says (lit "q2")])
  = [lit "a1"; lit "q1"].
Proof. reflexivity. Qed.

(** What the analyzer raises is no [Exception]. *)
Lemma analyze_content_raised self content query history w e w' :
  analyze_content self content query history w = (inr e, w') ->
  Effects.is_Exception e = false.
Proof.
  destruct content as [|c content]; [discriminate|].
  destruct query as [|q query]; [discriminate|].
  rewrite analyze_content_nonempty by discriminate.
  destruct (retry_loop _ _ _ w) as [[[t|]|e1] w1];
    try destruct (truthy t); try discriminate.
  destruct (Effects.is_Exception e1) eqn:He; [discriminate|].
  intros H. inversion H; subst. exact He.
Qed.

Lemma chat_cases :
  forall (analyzer : option ContentAnalyzer) (typed : option str)
         (ss : session_state) (w : world),
    (analyzer = None \/ dom_content ss = [] \/ typed = None \/ typed = Some [] ->
     chat analyzer typed ss w = (inl (ss, []), w))
    /\ (forall (self : ContentAnalyzer) (p : str),
          analyzer = Some self -> dom_content ss <> [] ->
          typed = Some p -> p <> [] ->
          (forall (r : str) (w' : world),
             analyze_content self (dom_content ss) p
               (Some (history_for_model (chat_history ss ++ [user_says p]))) w
             = (inl r, w') ->
             chat analyzer typed ss w
             = (inl ({| chat_history :=
                          chat_history ss
                          ++ user_says p
                             :: (if startswith r WARNING then []
                                 else [assistant_says r]);
                        dom_content := dom_content ss;
                        website_url := website_url ss |},
                     [Markdown p; Markdown (BRAIN ++ lit " Analyzing...");
                      if startswith r WARNING then Error r else Markdown r]),
                w'))
          /\ (forall (e : exception) (w' : world),
                analyze_content self (dom_content ss) p
                  (Some (history_for_model (chat_history ss ++ [user_says p]))) w
                = (inr e, w') ->
                chat analyzer typed ss w = (inr e, w')
                /\ Effects.is_Exception e = false)).
Proof.
  intros analyzer typed ss w. split.
  - intros [-> | [H | [-> | ->]]].
    + reflexivity.
    + unfold chat. rewrite H. destruct analyzer; reflexivity.
    + unfold chat. destruct analyzer; [|reflexivity].
      destruct (truthy (dom_content ss)); reflexivity.
    + unfold chat. destruct analyzer; [|reflexivity].
      destruct (truthy (dom_content ss)); reflexivity.
  - intros self p -> Hc -> Hp.
    destruct (dom_content ss) as [|c0 page] eqn:Hpage; [congruence|].
    destruct p as [|c p]; [congruence|].
    unfold chat. rewrite Hpage.
    cbn [truthy negb chat_history dom_content website_url].
    unfold try_except, bind, user_says, assistant_says. split.
    + intros r w' Hrun. rewrite Hrun.
      destruct (startswith r WARNING); unfold ret; cbn [app];
        rewrite <- ?app_assoc; reflexivity.
    + intros e w' Hrun. rewrite Hrun.
      rewrite (analyze_content_raised _ _ _ _ _ _ _ Hrun).
      split; reflexivity.
Qed.

(** X16.  One pass over the chat input.  Without an analyzer, without
    loaded content or without a submitted non-empty text nothing happens at
    all: the session is as it was, nothing is shown and nothing is sent.
    Otherwise the analyzer is called with the loaded content, the submitted
    text and the history for the model, taken after the text was appended
    as the user's message.  When it returns a string, the pass shows the
    text and the placeholder and then the string; a string that does not
    start with the warning marker is appended to the history as the
    assistant's message, one that does is shown as an error and kept out of
    the history; the loaded content and the URL stay as they are.  When the
    analyzer raises, which it does only with an exception that is no
    [Exception], the pass raises the same exception. *)
Theorem chat_keeps_errors_out_of_history :
  forall (analyzer : option ContentAnalyzer) (typed : option str)
         (ss : session_state) (w : world),
    (analyzer = None \/ dom_content ss = [] \/ typed = None \/ typed = Some [] ->
     chat analyzer typed ss w = (inl (ss, []), w))
    /\ (forall (self : ContentAnalyzer) (p : str),
          analyzer = Some self -> dom_content ss <> [] ->
          typed = Some p -> p <> [] ->
          (forall (r : str) (w' : world),
             analyze_content self (dom_content ss) p
               (Some (history_for_model (chat_history ss ++ [user_says p]))) w
             = (inl r, w') ->
             chat analyzer typed ss w
             = (inl ({| chat_history :=
                          chat_history ss
                          ++ user_says p
                             :: (if startswith r WARNING then []
                                 else [assistant_says r]);
                        dom_content := dom_content ss;
                        website_url := website_url ss |},
                     [Markdown p; Markdown (BRAIN ++ lit " Analyzing...");
                      if startswith r WARNING then Error r else Markdown r]),
                w'))
          /\ (forall (e : exception) (w' : world),
                analyze_content self (dom_content ss) p
                  (Some (history_for_model (chat_history ss ++ [user_says p]))) w
                = (inr e, w') ->
                chat analyzer typed ss w = (inr e, w')
                /\ Effects.is_Exception e = false)).
Proof. exact chat_cases. Qed.

Lemma chat_keeps_errors_out_of_history_witness :
  chat (Some (default_analyzer (flaky_model (lit "  Paris.  "))))
       (Some (lit "q2")) talking_session initial
  = (inl ({| chat_history :=
               chat_history talking_session
               ++ [user_says (lit "q2"); assistant_says (lit "Paris.")];
             dom_content := dom_content talking_session;
             website_url := website_url talking_session |},
          [Markdown (lit "q2"); Markdown (BRAIN ++ lit " Analyzing...");
           Markdown (lit "Paris.")]),
     snd (analyze_content (default_analyzer (flaky_model (lit "  Paris.  ")))
            (dom_content talking_session) (lit "q2")
            (Some (history_for_model
                     (chat_history talking_session ++ [user_says (lit "q2")])))
            initial))
  /\ chat (Some (default_analyzer interrupted_model))
          (Some (lit "q2")) talking_session initial
     = (inr interrupt,
        snd (analyze_content (default_analyzer interrupted_model)
               (dom_content talking_session) (lit "q2")
               (Some (history_for_model
                        (chat_history talking_session ++ [user_says (lit "q2")])))
               initial)).
Proof.
  split.
  - apply (proj1 (proj2 (chat_keeps_errors_out_of_history
                           (Some (default_analyzer (flaky_model (lit "  Paris.  "))))
                           (Some (lit "q2")) talking_session initial)
                        _ _ eq_refl ltac:(discriminate) eq_refl ltac:(discriminate))
                 (lit "Paris.") _).
    reflexivity.
  - apply (proj2 (proj2 (chat_keeps_errors_out_of_history
                           (Some (default_analyzer interrupted_model))
                           (Some (lit "q2")) talking_session initial)
                        _ _ eq_refl ltac:(discriminate) eq_refl ltac:(discriminate))
                 interrupt _).
    reflexivity.
Defined.

(** X17.  Unless the load button is pressed with an analyzer at hand and
    a non-empty URL that starts with http:// or https://, the sidebar leaves
    the loaded content and the chat history alone and asks nothing of the
    browser. *)
Theorem sidebar_keeps_session_on_bad_url :
  forall (P : str -> option soup) (d : driver) (initialized clicked : bool)
         (typed_url : str) (ss : session_state),
    clicked && initialized && truthy typed_url && has_scheme typed_url = false ->
    exists shown,
      sidebar P d initialized typed_url clicked ss
      = Some ({| chat_history := chat_history ss;
                 dom_content := dom_content ss;
                 website_url := typed_url |}, shown, []).
Proof.
  intros P d initialized clicked typed_url ss H. unfold sidebar.
  cbn [website_url].
  destruct (clicked && initialized); [|eexists; reflexivity].
  cbn [andb] in H. rewrite H.
  destruct (negb (truthy typed_url)); eexists; reflexivity.
Qed.

Lemma sidebar_keeps_session_on_bad_url_witness :
  exists shown,
    sidebar HtmlParser.BeautifulSoup (good_driver hello_page) true
            (lit "ftp://example.com") true talking_session
    = Some ({| chat_history := chat_history talking_session;
               dom_content := dom_content talking_session;
               website_url := lit "ftp://example.com" |}, shown, []).
Proof.
  apply sidebar_keeps_session_on_bad_url. reflexivity.
Defined.

(** X18.  A load with a well-formed URL starts from scratch: whatever was
    loaded and said before is gone, also when the scrape fails; after a
    failed scrape the content is empty and one error is shown; after a
    successful one the content is the cleaned text of the extracted body. *)
Theorem sidebar_load_replaces_session :
  forall (P : str -> option soup) (d : driver) (typed_url : str)
         (ss ss' : session_state) (shown : list ui) (calls : list call),
    typed_url <> [] -> has_scheme typed_url = true ->
    sidebar P d true typed_url true ss = Some (ss', shown, calls) ->
    chat_history ss' = []
    /\ website_url ss' = typed_url
    /\ calls = snd (scrape_website d typed_url)
    /\ (forall e, fst (scrape_website d typed_url) = inr e ->
          dom_content ss' = [] /\ exists msg, shown = [Error msg])
    /\ (forall html, fst (scrape_website d typed_url) = inl html ->
          exists body,
            extract_body_content P html = Some body
            /\ clean_body_content P body = Some (dom_content ss')).
Proof.
  intros P d typed_url ss ss' shown calls Hne Hs.
  apply truthy_nonempty in Hne. unfold sidebar, load_page.
  cbn [website_url andb]. rewrite Hne, Hs. cbn [andb].
  destruct (scrape_website d typed_url) as [[html|e] log] eqn:Hscrape.
  - destruct (extract_body_content P html) as [body|] eqn:Hext; [|discriminate].
    destruct (clean_body_content P body) as [text|] eqn:Hclean; [|discriminate].
    intros H. inversion H; subst. cbn [chat_history website_url dom_content fst snd].
    split; [reflexivity|]. split; [reflexivity|]. split; [reflexivity|]. split.
    + intros e He. discriminate.
    + intros html' Hh. inversion Hh; subst. exists body. split; assumption.
  - destruct (is_RuntimeError e); [|destruct (PyError.is_Exception e)];
      try discriminate;
      intros H; inversion H; subst;
      cbn [chat_history website_url dom_content fst snd];
      (split; [reflexivity|]); (split; [reflexivity|]); (split; [reflexivity|]);
      (split; [intros e' He; split; [reflexivity | eexists; reflexivity]
              | intros html Hh; discriminate]).
Qed.

Lemma sidebar_load_replaces_session_witness :
  chat_history
    {| chat_history := []; dom_content := lit "Hello" ++ [LF] ++ lit "World";
       website_url := lit "https://example.com" |} = []
  /\ lit "https://example.com" = lit "https://example.com"
  /\ [Launch; SetPageLoadTimeout 30; Get (lit "https://example.com"); Sleep 5;
      PageSource; Quit]
     = snd (scrape_website (good_driver hello_page) (lit "https://example.com")).
Proof.
  destruct (sidebar_load_replaces_session HtmlParser.BeautifulSoup
              (good_driver hello_page) (lit "https://example.com")
              talking_session
              {| chat_history := [];
                 dom_content := lit "Hello" ++ [LF] ++ lit "World";
                 website_url := lit "https://example.com" |}
              [Success (CHECK_MARK ++ lit " Website content loaded and cleaned!")]
              [Launch; SetPageLoadTimeout 30; Get (lit "https://example.com");
               Sleep 5; PageSource; Quit])
    as (H1 & H2 & H3 & _).
  - discriminate.
  - reflexivity.
  - reflexivity.
  - split; [exact H1 | split; [exact H2 | exact H3]].
Defined.

(** X19.  A page whose parse holds no body tag loads as empty content: the
    extraction gives the empty string, the cleaning keeps it, and the page
    shows the appears-empty warning. *)
Theorem sidebar_page_without_body :
  forall (P : str -> option soup) (d : driver) (typed_url html : str)
         (sp : soup) (ss : session_state),
    typed_url <> [] -> has_scheme typed_url = true ->
    fst (scrape_website d typed_url) = inl html ->
    html <> [] -> P html = Some sp ->
    find (lit "body") sp = None ->
    sidebar P d true typed_url true ss
    = Some ({| chat_history := []; dom_content := []; website_url := typed_url |},
            [Warning (WARNING ++ lit " Content loaded, but it appears empty after cleaning. The page might be dynamic or lack text.")],
            snd (scrape_website d typed_url)).
Proof.
  intros P d typed_url html sp ss Hne Hs Hscrape Hh Hp Hb.
  apply truthy_nonempty in Hne, Hh. unfold sidebar, load_page.
  cbn [website_url andb]. rewrite Hne, Hs. cbn [andb].
  destruct (scrape_website d typed_url) as [r log]. cbn [fst snd] in *. subst r.
  unfold extract_body_content. rewrite Hh. cbn [negb]. rewrite Hp, Hb.
  reflexivity.
Qed.

Lemma sidebar_page_without_body_witness :
  sidebar HtmlParser.BeautifulSoup (good_driver (lit "<p>Hello</p>")) true
          (lit "https://example.com") true talking_session
  = Some ({| chat_history := []; dom_content := [];
             website_url := lit "https://example.com" |},
          [Warning (WARNING ++ lit " Content loaded, but it appears empty after cleaning. The page might be dynamic or lack text.")],
          snd (scrape_website (good_driver (lit "<p>Hello</p>"))
                              (lit "https://example.com"))).
Proof.
  eapply (sidebar_page_without_body HtmlParser.BeautifulSoup
            (good_driver (lit "<p>Hello</p>")) (lit "https://example.com")
            (lit "<p>Hello</p>")).
  - discriminate.
  - reflexivity.
  - reflexivity.
  - discriminate.
  - reflexivity.
  - reflexivity.
Defined.

(** X20.  The preview shows at most 5003 characters: the whole content when
    it has at most 5000, its first 5000 followed by three dots otherwise; and
    there is no preview without content. *)
Theorem preview_bounded :
  forall (ss : session_state),
    (dom_content ss = [] -> preview ss = None)
    /\ (dom_content ss <> [] -> len (dom_content ss) <= 5000 ->
        preview ss = Some (dom_content ss))
    /\ (5000 < len (dom_content ss) ->
        preview ss = Some (firstn 5000 (dom_content ss) ++ lit "..."))
    /\ (forall p, preview ss = Some p -> len p <= 5003).
Proof.
  intros ss. unfold preview.
  assert (Hslice : slice_to (dom_content ss) 5000 = firstn 5000 (dom_content ss))
    by reflexivity.
  rewrite Hslice. unfold len.
  repeat split.
  - intros ->. reflexivity.
  - intros Hne Hle. apply truthy_nonempty in Hne. rewrite Hne.
    destruct (Z.gtb_spec (Z.of_nat (List.length (dom_content ss))) 5000); [lia|].
    rewrite firstn_all2 by lia. rewrite app_nil_r. reflexivity.
  - intros Hlt.
    destruct (dom_content ss) as [|c page] eqn:E; [simpl in Hlt; lia|].
    cbn [truthy].
    destruct (Z.gtb_spec (Z.of_nat (List.length (c :: page))) 5000); [reflexivity | lia].
  - intros p. destruct (truthy (dom_content ss)); [|discriminate].
    assert (Hpre : (List.length (firstn 5000 (dom_content ss)) <= 5000)%nat)
      by apply firstn_le_length.
    set (pre := firstn 5000 (dom_content ss)) in *. clearbody pre.
    intros H. inversion H; subst. rewrite length_app.
    destruct (Z.of_nat (List.length (dom_content ss)) >? 5000); simpl List.length; lia.
Qed.

Lemma preview_bounded_witness :
  preview talking_session = Some (dom_content talking_session).
Proof.
  apply (proj1 (proj2 (preview_bounded talking_session))).
  - discriminate.
  - vm_compute. discriminate.
Defined.

(** X21.  The labels of the context lines do not follow the roles.  With
    at most four earlier messages, the first context line of the prompt
    carries the label "User", and what it holds is the first earlier message
    that is not the user's: in a running conversation, the assistant's first
    reply. *)
Theorem first_context_line_mislabelled :
  forall (h : list message) (p : str) (first : message) (others : list message),
    filter (fun msg => negb (is_user msg)) h = first :: others ->
    (List.length h <= 4)%nat ->
    is_user first = false
    /\ exists tail,
         context_str (Some (history_for_model (h ++ [user_says p])))
         = CONTEXT_HEADING ++ lit "User: " ++ content first ++ tail.
Proof.
  intros h p first others Hf Hlen. split.
  - assert (Hin : In first (filter (fun msg => negb (is_user msg)) h))
      by (rewrite Hf; left; reflexivity).
    apply filter_In in Hin. destruct Hin as [_ Hn].
    apply negb_true_iff in Hn. exact Hn.
  - destruct (history_for_model_without_prompt_shape h p) as [E L].
    rewrite Hf in E. cbn [map app] in E.
    set (rest := map content others ++ map content (filter is_user h)) in *.
    assert (Hne : history_for_model (h ++ [user_says p]) <> [])
      by (rewrite E; discriminate).
    rewrite (context_str_nonempty _ Hne). unfold slice_last.
    replace (List.length (history_for_model (h ++ [user_says p])) - 4)%nat
      with 0%nat by lia.
    cbn [skipn]. rewrite E. unfold enumerate. cbn [enumerate_from map fst snd].
    change (role_label 0) with (lit "User").
    match goal with
    | |- context [join [LF] (_ :: ?more)] => destruct more as [|l ls]
    end; cbn [join].
    + exists []. rewrite app_nil_r. reflexivity.
    + exists ([LF] ++ join [LF] (l :: ls)). rewrite <- !app_assoc. reflexivity.
Qed.

Lemma first_context_line_mislabelled_witness :
  is_user (assistant_says (lit "a1")) = false
  /\ exists tail,
       context_str (Some (history_for_model
                            (chat_history talking_session ++ [user_says (lit "q2")])))
       = CONTEXT_HEADING ++ lit "User: " ++ lit "a1" ++ tail.
Proof.
  apply (first_context_line_mislabelled (chat_history talking_session) (lit "q2")
           (assistant_says (lit "a1")) []).
  - reflexivity.
  - simpl. lia.
Defined.

(** X22.  Everything a chat turn sends to the endpoint is one and the same
    prompt, built from the loaded content, the submitted text and the earlier
    messages; and it sends it at most [max_retries] times. *)
Theorem chat_requests :
  forall (self : ContentAnalyzer) (p : str) (ss : session_state) (w : world),
    dom_content ss <> [] -> p <> [] ->
    exists n,
      requests (snd (chat (Some self) (Some p) ss w))
      = requests w
        ++ repeat (sent_prompt (dom_content ss) p
                     (Some (history_for_model (chat_history ss ++ [user_says p]))))
                  n
      /\ Z.of_nat n <= Z.max 0 (max_retries self).
Proof.
  intros self p ss w Hc Hp.
  destruct (dom_content ss) as [|c0 page] eqn:Hpage; [congruence|].
  destruct p as [|c p]; [congruence|].
  unfold chat. rewrite Hpage.
  cbn [truthy negb chat_history dom_content website_url].
  unfold try_except, bind.
  destruct (analyze_content_requests self (c0 :: page) (c :: p)
              (Some (history_for_model (chat_history ss ++ [user_says (c :: p)]))) w)
    as (n & Hreq & Hn & _).
  exists n. split; [|exact Hn].
  etransitivity; [|exact Hreq]. unfold user_says.
  destruct (analyze_content _ _ _ _ w) as [[r|e] w']; cbn [snd].
  - destruct (startswith r WARNING); reflexivity.
  - destruct (Effects.is_Exception e); reflexivity.
Qed.

Lemma chat_requests_witness :
  exists n,
    requests (snd (chat (Some (default_analyzer dead_model)) (Some (lit "q2"))
                        talking_session initial))
    = requests initial
      ++ repeat (sent_prompt (dom_content talking_session) (lit "q2")
                   (Some (history_for_model
                            (chat_history talking_session ++ [user_says (lit "q2")]))))
                n
    /\ Z.of_nat n <= Z.max 0 (max_retries (default_analyzer dead_model)).
Proof.
  apply chat_requests; discriminate.
Defined.

(** X25.  The chat history stays clean: it starts empty, and after every
    pass over the sidebar and over the chat input each of its entries is
    either a message of the user or an answer of the assistant that does not
    start with the warning marker. *)
Theorem chat_history_stays_clean :
  clean_history (chat_history new_session)
  /\ (forall (P : str -> option soup) (d : driver) (initialized clicked : bool)
             (typed_url : str) (ss ss' : session_state) (shown : list ui)
             (calls : list call),
        clean_history (chat_history ss) ->
        sidebar P d initialized typed_url clicked ss = Some (ss', shown, calls) ->
        clean_history (chat_history ss'))
  /\ (forall (analyzer : option ContentAnalyzer) (typed : option str)
             (ss ss' : session_state) (shown : list ui) (w w' : world),
        clean_history (chat_history ss) ->
        chat analyzer typed ss w = (inl (ss', shown), w') ->
        clean_history (chat_history ss')).
Proof.
  split; [constructor|]. split.
  - intros P d initialized clicked typed_url ss ss' shown calls Hinv.
    unfold sidebar, load_page. cbn [website_url chat_history].
    destruct (clicked && initialized).
    + destruct (truthy typed_url && has_scheme typed_url).
      * destruct (scrape_website d typed_url) as [[html|e] log].
        -- destruct (extract_body_content P html) as [body|]; [|discriminate].
           destruct (clean_body_content P body) as [text|]; [|discriminate].
           intros H. inversion H; subst. constructor.
        -- destruct (is_RuntimeError e); [|destruct (PyError.is_Exception e)];
             try discriminate; intros H; inversion H; subst; constructor.
      * destruct (negb (truthy typed_url)); intros H; inversion H; subst; exact Hinv.
    + intros H. inversion H; subst. exact Hinv.
  - intros analyzer typed ss ss' shown w w' Hinv Hrun.
    destruct (chat_cases analyzer typed ss w) as [Hidle Hturn].
    assert (Hkept : chat analyzer typed ss w = (inl (ss, []), w) ->
                    clean_history (chat_history ss')).
    { intros H. rewrite Hrun in H. inversion H; subst. exact Hinv. }
    destruct analyzer as [self|]; [|apply Hkept, Hidle; auto].
    destruct (dom_content ss) as [|c0 page] eqn:Hpage;
      [apply Hkept, Hidle; auto|].
    destruct typed as [[|c p]|]; [apply Hkept, Hidle; auto 10 | | apply Hkept, Hidle; auto 10].
    destruct (Hturn self (c :: p) eq_refl ltac:(discriminate) eq_refl ltac:(discriminate))
      as [Hret Hraise].
    destruct (analyze_content self (c0 :: page) (c :: p)
                (Some (history_for_model (chat_history ss ++ [user_says (c :: p)]))) w)
      as [[r|e] w1] eqn:Hana.
    + rewrite (Hret r w1 eq_refl) in Hrun. inversion Hrun; subst.
      cbn [chat_history]. unfold clean_history in *.
      apply Forall_app. split; [exact Hinv|].
      apply Forall_cons; [left; reflexivity|].
      destruct (startswith r WARNING) eqn:Hm; [apply Forall_nil|].
      apply Forall_cons; [|apply Forall_nil].
      right. split; [reflexivity | exact Hm].
    + destruct (Hraise e w1 eq_refl) as [Hr _]. rewrite Hr in Hrun. discriminate.
Qed.

Lemma chat_history_stays_clean_witness :
  clean_history (chat_history talking_session ++ [user_says (lit "q2")]).
Proof.
  apply (proj2 (proj2 chat_history_stays_clean)
               (Some (default_analyzer dead_model)) (Some (lit "q2"))
               talking_session
               {| chat_history := chat_history talking_session ++ [user_says (lit "q2")];
                  dom_content := dom_content talking_session;
                  website_url := website_url talking_session |}
               [Markdown (lit "q2"); Markdown (BRAIN ++ lit " Analyzing...");
                Error ANALYSIS_FAILED]
               initial
               (snd (chat (Some (default_analyzer dead_model)) (Some (lit "q2"))
                          talking_session initial))).
  - apply Forall_cons; [left; reflexivity|].
    apply Forall_cons; [right; split; reflexivity|].
    apply Forall_nil.
  - reflexivity.
Defined.

(** X26.  After a load whose scrape failed, the chat input is dead: whatever
    is submitted, nothing is sent, shown or stored. *)
Theorem chat_after_failed_load :
  forall (P : str -> option soup) (d : driver) (typed_url : str)
         (ss ss' : session_state) (shown : list ui) (calls : list call)
         (e : error),
    typed_url <> [] -> has_scheme typed_url = true ->
    fst (scrape_website d typed_url) = inr e ->
    sidebar P d true typed_url true ss = Some (ss', shown, calls) ->
    forall (analyzer : option ContentAnalyzer) (typed : option str) (w : world),
      chat analyzer typed ss' w = (inl (ss', []), w).
Proof.
  intros P d typed_url ss ss' shown calls e Hne Hs Hfail.
  apply truthy_nonempty in Hne. unfold sidebar, load_page.
  cbn [website_url andb]. rewrite Hne, Hs. cbn [andb].
  destruct (scrape_website d typed_url) as [r log]. cbn [fst] in Hfail. subst r.
  destruct (is_RuntimeError e); [|destruct (PyError.is_Exception e)];
    try discriminate;
    intros H; inversion H; subst; intros analyzer typed w;
    unfold chat; cbn [dom_content truthy negb];
    destruct analyzer; reflexivity.
Qed.

Lemma chat_after_failed_load_witness :
  chat (Some (default_analyzer dead_model)) (Some (lit "q2"))
       {| chat_history := []; dom_content := [];
          website_url := lit "https://example.com" |} initial
  = (inl ({| chat_history := []; dom_content := [];
             website_url := lit "https://example.com" |}, []), initial).
Proof.
  eapply (chat_after_failed_load HtmlParser.BeautifulSoup stuck_driver
            (lit "https://example.com") talking_session).
  - discriminate.
  - reflexivity.
  - reflexivity.
  - reflexivity.
Defined.

End MainExtras.

(** ** The text cleaner: the form of its output *)

Module CleanerExtras.
Import Py Soup Scrape HtmlParser PySpec SoupSpec ScrapeSpec.
Import SoupFacts PyFacts CleanerClaims.

Lemma splitlines_collapse text :
  splitlines (collapse_blank_lines text) = filter nonblank (splitlines text).
Proof.
  unfold collapse_blank_lines. apply splitlines_join.
  apply Forall_forall. intros l Hl. apply filter_In in Hl.
  destruct Hl as [Hin Hn]. split; [|apply nonblank_nonempty; exact Hn].
  pose proof (splitlines_one_line text) as Hall.
  rewrite Forall_forall in Hall. exact (Hall l Hin).
Qed.

(** X23.  Whatever the parse, the cleaned text has no white space at either
    end and no blank line: each of its lines holds a character that is not
    white space. *)
Theorem clean_body_content_has_no_blank_line :
  forall (P : str -> option soup) (body_html cleaned_text : str),
    clean_body_content P body_html = Some cleaned_text ->
    strip cleaned_text = cleaned_text
    /\ Forall (fun line => strip line <> []) (splitlines cleaned_text).
Proof.
  intros P x y Hx.
  destruct (clean_body_content_shape P x y Hx) as [Hs Hc].
  split; [exact Hs|].
  rewrite <- Hc, splitlines_collapse.
  apply Forall_forall. intros l Hl. apply filter_In in Hl.
  destruct Hl as [_ Hn]. unfold nonblank in Hn.
  destruct (strip l); [discriminate Hn | discriminate].
Qed.

Lemma clean_body_content_has_no_blank_line_witness :
  strip (lit "Hello" ++ [LF] ++ lit "World") = lit "Hello" ++ [LF] ++ lit "World"
  /\ Forall (fun line => strip line <> [])
            (splitlines (lit "Hello" ++ [LF] ++ lit "World")).
Proof.
  apply (clean_body_content_has_no_blank_line BeautifulSoup hello_page).
  reflexivity.
Defined.

Lemma lstrip_all_space s : forallb isspace s = true -> lstrip s = [].
Proof.
  induction s as [|c s IH]; simpl; [reflexivity|].
  intros H. apply andb_prop in H. destruct H as [Hc Hs].
  rewrite Hc. exact (IH Hs).
Qed.

Lemma strip_all_space s : forallb isspace s = true -> strip s = [].
Proof.
  intros H. unfold strip. rewrite (lstrip_all_space s H). reflexivity.
Qed.

(** Collapsing white-space-only data does not change what [strip] leaves. *)
Lemma strip_collapse y : strip (collapse y) = strip y.
Proof.
  unfold collapse.
  destruct (forallb (fun c => has_char c ASCII_SPACES) y) eqn:Hall; [|reflexivity].
  assert (Hsp : forallb isspace y = true).
  { apply forallb_forall. intros c Hc. rewrite forallb_forall in Hall.
    apply ascii_space_isspace. exact (Hall c Hc). }
  rewrite (strip_all_space y Hsp).
  destruct (has_char LF y); reflexivity.
Qed.

(** X24.  Under the html.parser fragment, text without [<] and [&] is its
    own only string: cleaning it strips it and drops its blank lines, and
    does nothing else. *)
Theorem clean_body_content_of_plain_text :
  forall (y : str),
    markup_free y = true ->
    clean_body_content BeautifulSoup y
    = Some (collapse_blank_lines (strip y)).
Proof.
  intros y Hm. destruct y as [|c y]; [reflexivity|].
  unfold clean_body_content. cbn [truthy negb].
  unfold BeautifulSoup, start. rewrite (feed_data (c :: y) Hm). cbn [app].
  unfold finish, endData. cbn [current_data tagStack root append pop_all rev app].
  cbn [find_all flat_map find_all_node app fold_left].
  unfold get_text, all_strings. cbn [flat_map all_strings_node interesting].
  rewrite app_nil_r, strip_collapse.
  unfold len. destruct (strip (c :: y)) as [|a r]; reflexivity.
Qed.

Lemma clean_body_content_of_plain_text_witness :
  clean_body_content BeautifulSoup (lit "  a" ++ [LF; LF] ++ lit "b ")
  = Some (collapse_blank_lines (strip (lit "  a" ++ [LF; LF] ++ lit "b "))).
Proof.
  apply clean_body_content_of_plain_text. reflexivity.
Defined.

End CleanerExtras.
